(** * attendance-app-2: the notification pipeline of [server.js]

    A shallow embedding of the Firestore change handler and of
    [sendVisibleNotification], and the properties of the dispatch
    pipeline proved about them.

    Conventions of the embedding.

    - JavaScript strings are sequences of UTF-8 bytes ([string]).
    - A document field that the application stores as a string is an
      [option string]: [None] is a field that is missing ([undefined])
      or [null]; the program treats the two alike, as it only tests such
      a value for truthiness ([truthy]) before it uses it.
    - An asynchronous function is a computation [Async A]: the effects it
      performs, in order, and how its promise settles (a value, or the
      exception it rejects with).  [await] is sequencing; [try]/[catch]
      is [try_catch].
    - The answers of the outside world (Firestore, the identity provider,
      the clock) during one run of the pipeline, and the verdict of the
      runtime on the options of a request, are a record [Env].
    - The callback of [forEach] (line 32) uses [await] (lines 43, 60 and
      72) but is not declared [async]: as committed, the file is refused
      by the parser, no statement of it runs and the callback is never
      called.  [on_change] is the body of that callback, run as the
      [async] function its [await]s ask for.  The theorems about
      [on_change] are therefore stated so that they hold of the
      committed program too, which makes no run at all: a theorem bounds
      what a run may do, or is conditional on effects found in the trace
      of the run itself; the lemmas and examples that lead to them
      describe the runs of the body.  [sendVisibleNotification] is a
      well-formed [async] function, and what is proved of it is proved
      of its calls. *)

From Stdlib Require Import List String Ascii ZArith NArith Bool Lia.
From Stdlib Require Import DecimalString.
Import ListNotations.

Local Open Scope string_scope.
Local Open Scope Z_scope.

Set Warnings "-register-all".

(** ** Strings *)

Module Js.

(** Template-literal interpolation of an integer: its decimal digits. *)
Definition of_Z (z : Z) : string := NilZero.string_of_int (Z.to_int z).

(** The character of a decimal digit. *)
Definition digit (k : Z) : ascii := ascii_of_N (48 + Z.to_N k).

(** A string-valued field: present with a value, or [undefined] (or
    [null]). *)
Definition value := option string.

(** ToBoolean: [undefined] and the empty string are falsy. *)
Definition truthy (v : value) : bool :=
  match v with
  | Some s => negb (s =? "")%string
  | None => false
  end.

(** ToString, as a template literal applies it. *)
Definition str (v : value) : string :=
  match v with
  | Some s => s
  | None => "undefined"
  end.

(** [v || d] *)
Definition or_else (v : value) (d : string) : string :=
  if truthy v then str v else d.

(** [s || d] on a string. *)
Definition or_str (s d : string) : string :=
  if (s =? "")%string then d else s.

(** Number of UTF-16 code units of a string given by its UTF-8 bytes:
    what [.length] returns.  Continuation bytes count for nothing, the
    lead byte of a four-byte sequence for a surrogate pair. *)
Definition utf16_units (c : ascii) : N :=
  let n := N_of_ascii c in
  if (n <? 128)%N then 1%N
  else if (n <? 192)%N then 0%N
  else if (n <? 240)%N then 1%N
  else 2%N.

Fixpoint length (s : string) : N :=
  match s with
  | EmptyString => 0%N
  | String c s' => (utf16_units c + length s')%N
  end.

End Js.

(** ** JSON.stringify

    The runtime's serializer, on the values the program gives it: the
    message is an object literal whose leaves are strings, so the JSON
    values that occur are strings and objects.  Members are written in
    the order of the literal. *)

Module JSON.

Inductive t : Type :=
| Str (s : string)
| Obj (members : list (string * t)).

Definition hex_digit (n : N) : ascii :=
  if (n <? 10)%N then ascii_of_N (48 + n) else ascii_of_N (87 + n).

(** QuoteJSONString on one byte: the two-character escapes, [\u00xx] for
    the other control characters, anything else unchanged. *)
Definition escape (c : ascii) : string :=
  let n := N_of_ascii c in
  if (n =? 8)%N then "\b"
  else if (n =? 9)%N then "\t"
  else if (n =? 10)%N then "\n"
  else if (n =? 12)%N then "\f"
  else if (n =? 13)%N then "\r"
  else if (n =? 34)%N then String "\" (String "034" EmptyString)
  else if (n =? 92)%N then "\\"
  else if (n <? 32)%N then
    "\u00" ++ String (hex_digit (n / 16)) (String (hex_digit (n mod 16)) EmptyString)
  else String c EmptyString.

Fixpoint escape_all (s : string) : string :=
  match s with
  | EmptyString => EmptyString
  | String c s' => escape c ++ escape_all s'
  end.

Definition dquote : string := String "034" EmptyString.

Definition quote (s : string) : string := dquote ++ escape_all s ++ dquote.

(** The members of an object, separated by commas, each value rendered
    by [value_string]. *)
Definition members_string (value_string : t -> string)
    : bool -> list (string * t) -> string :=
  fix go (first : bool) (ms : list (string * t)) : string :=
    match ms with
    | [] => ""
    | (k, v) :: ms' =>
        (if first then "" else ",") ++ quote k ++ ":" ++ value_string v ++ go false ms'
    end.

Fixpoint stringify (j : t) : string :=
  match j with
  | Str s => quote s
  | Obj members => "{" ++ members_string stringify true members ++ "}"
  end.

(** Property access [o.k]. *)
Fixpoint get (k : string) (members : list (string * t)) : option t :=
  match members with
  | [] => None
  | (k', v) :: ms => if (k =? k')%string then Some v else get k ms
  end.

Definition member (k : string) (j : t) : option t :=
  match j with
  | Obj members => get k members
  | Str _ => None
  end.

(** [j.k1.k2...] *)
Fixpoint at_path (ks : list string) (j : t) : option t :=
  match ks with
  | [] => Some j
  | k :: ks' =>
      match member k j with
      | Some v => at_path ks' v
      | None => None
      end
  end.

End JSON.

(** ** Effects and asynchronous computations *)

(** A thrown value; the handlers only read its [message]. *)
Record Error : Type := mkError { message : string }.

Record Headers : Type := mkHeaders {
  Authorization : string;
  Content_Type : string;
  Content_Length : N
}.

Record RequestOptions : Type := mkOptions {
  hostname : string;
  port : Z;
  path : string;
  method : string;
  headers : Headers
}.

(** What the gateway's answer looks like to the callbacks of the
    request: the status code and the chunks of the body. *)
Record IncomingMessage : Type := mkResponse {
  statusCode : Z;
  chunks : list string
}.

(** The effects of the pipeline on the outside world.  A request carries
    the listeners that were registered on it: they run later, when the
    runtime delivers the response or the transport error. *)
Inductive Effect : Type :=
| ConsoleLog (line : string)
| ConsoleError (line : string) (detail : string)
| GetUser (uid : string)
| GetSubject (uid subjectId : string)
| Authorize (email key : string) (scopes : list string)
| HttpsRequest (options : RequestOptions) (data : string)
               (on_response : IncomingMessage -> list Effect * (Error + unit))
               (on_error : Error -> list Effect * (Error + unit)).

(** An asynchronous computation: the effects performed, and the value
    the promise resolves to or the error it rejects with. *)
Definition Async (A : Type) : Type := (list Effect * (Error + A))%type.

Definition trace {A} (m : Async A) : list Effect := fst m.
Definition settled {A} (m : Async A) : Error + A := snd m.

Definition ret {A} (a : A) : Async A := ([], inr a).
Definition emit (e : Effect) : Async unit := ([e], inr tt).

Definition bind {A B} (m : Async A) (k : A -> Async B) : Async B :=
  match settled m with
  | inl e => (trace m, inl e)
  | inr a => ((trace m ++ trace (k a))%list, settled (k a))
  end.

(** [try { m } catch (err) { h err }] *)
Definition try_catch {A} (m : Async A) (h : Error -> Async A) : Async A :=
  match settled m with
  | inl e => ((trace m ++ trace (h e))%list, settled (h e))
  | inr a => m
  end.

(** Completing an external call with the answer the world gave. *)
Definition answer {A} (r : Error + A) : Async A := ([], r).

(** [throw err] *)
Definition throw {A} (err : Error) : Async A := ([], inl err).

Declare Scope async_scope.
Delimit Scope async_scope with async.
Notation "x <- m ;; k" := (bind m (fun x => k))
  (at level 100, m at next level, right associativity) : async_scope.
Notation "m ;; k" := (bind m (fun _ => k))
  (at level 100, right associativity) : async_scope.

Definition console_log (line : string) : Async unit := emit (ConsoleLog line).
Definition console_error (line detail : string) : Async unit :=
  emit (ConsoleError line detail).

(** ** Dates

    A [Date] is its time value: milliseconds since the epoch, UTC.  The
    program formats a date with [toLocaleDateString('en-IN', {day:
    '2-digit', month: 'short', year: 'numeric'})]; the call is the
    program's, the rendering is the runtime's.  The local time zone
    adjustment is an input. *)

Module Date.

Definition t := Z.

Definition msPerDay : Z := 86400000.

(** Day number of a time value (floor division). *)
Definition Day (tv : t) : Z := tv / msPerDay.

(** Year, month (1..12) and day of the month of a day number, in the
    proleptic Gregorian calendar. *)
Definition civil (days : Z) : Z * Z * Z :=
  let z := days + 719468 in
  let era := z / 146097 in
  let doe := z - era * 146097 in
  let yoe := (doe - doe / 1460 + doe / 36524 - doe / 146096) / 365 in
  let doy := doe - (365 * yoe + yoe / 4 - yoe / 100) in
  let mp := (5 * doy + 2) / 153 in
  let d := doy - (153 * mp + 2) / 5 + 1 in
  let m := if mp <? 10 then mp + 3 else mp - 9 in
  let y := yoe + era * 400 in
  (if m <=? 2 then y + 1 else y, m, d).

(** The day number of a calendar date, as the language defines it:
    [DayFromYear], [InLeapYear], and the lengths of the months that
    come before in the year. *)
Definition InLeapYear (y : Z) : bool :=
  ((y mod 4 =? 0) && negb (y mod 100 =? 0)) || (y mod 400 =? 0).

Definition DaysInMonth (y m : Z) : Z :=
  if m =? 2 then (if InLeapYear y then 29 else 28)
  else if (m =? 4) || (m =? 6) || (m =? 9) || (m =? 11) then 30
  else 31.

Definition DayFromYear (y : Z) : Z :=
  365 * (y - 1970) + (y - 1969) / 4 - (y - 1901) / 100 + (y - 1601) / 400.

Definition DaysBeforeMonth (y m : Z) : Z :=
  fold_right Z.add 0
    (map (DaysInMonth y)
       (filter (fun k => k <? m) [1; 2; 3; 4; 5; 6; 7; 8; 9; 10; 11; 12])).

Definition MakeDay (y m d : Z) : Z :=
  DayFromYear y + DaysBeforeMonth y m + (d - 1).

Inductive Locale := en_IN.
Inductive DayFormat := day_numeric | day_2_digit.
Inductive MonthFormat := month_short | month_long.
Inductive YearFormat := year_numeric | year_2_digit.

Record Options : Type := mkOptions {
  day : DayFormat;
  month : MonthFormat;
  year : YearFormat
}.

Definition two_digits (n : Z) : string :=
  let r := n mod 100 in
  if r <? 10 then "0" ++ Js.of_Z r else Js.of_Z r.

Definition month_names : list (string * string) :=
  [("Jan", "January"); ("Feb", "February"); ("Mar", "March"); ("Apr", "April");
   ("May", "May"); ("Jun", "June"); ("Jul", "July"); ("Aug", "August");
   ("Sept", "September"); ("Oct", "October"); ("Nov", "November"); ("Dec", "December")].

Definition month_abbreviations : list string := map fst month_names.

Definition render_day (f : DayFormat) (d : Z) : string :=
  match f with
  | day_numeric => Js.of_Z d
  | day_2_digit => two_digits d
  end.

Definition render_month (f : MonthFormat) (m : Z) : string :=
  let names := nth (Z.to_nat (m - 1)) month_names ("", "") in
  match f with
  | month_short => fst names
  | month_long => snd names
  end.

Definition render_year (f : YearFormat) (y : Z) : string :=
  match f with
  | year_numeric => Js.of_Z y
  | year_2_digit => two_digits y
  end.

(** Modelled from the spec: the locale data of the runtime, which fixes
    how [toLocaleDateString(locale, options)] lays out a date for en-IN,
    is not part of the sources; the spec gives the layout as
    day, abbreviated month, year, separated by spaces ("05 Mar 2024").
    The abbreviations are those of the locale, which writes "Sept" for
    September.  The fields are those of the local calendar date, in the
    time zone whose adjustment is [localTZA]. *)
Definition toLocaleDateString (locale : Locale) (options : Options)
    (localTZA : Z) (tv : t) : string :=
  match locale with
  | en_IN =>
      let '(y, m, d) := civil (Day (tv + localTZA)) in
      render_day (day options) d ++ " " ++ render_month (month options) m
        ++ " " ++ render_year (year options) y
  end.

End Date.

(** ** Documents *)

(** A Firestore timestamp, known by the [Date] that [toDate()] gives. *)
Record Timestamp : Type := mkTimestamp { toDate : Date.t }.

Module Notification.
Record data : Type := mk {
  uid : Js.value;
  subjectId : Js.value;
  status : Js.value;
  dateTime : option Timestamp
}.
End Notification.

Module User.
Record data : Type := mk {
  fcmToken : Js.value;
  image_1 : Js.value;
  link_1 : Js.value
}.
End User.

Module Subject.
Record data : Type := mk { name : Js.value }.
End Subject.

Inductive ChangeType := added | modified | removed.

(** One entry of [snapshot.docChanges()]: [type] and [doc.data()]. *)
Record DocumentChange : Type := mkChange {
  type : ChangeType;
  doc : Notification.data
}.

(** A fetched document: [None] when [exists] is false. *)
Definition DocumentSnapshot (A : Type) : Type := option A.

Record ServiceAccount : Type := mkServiceAccount {
  client_email : string;
  private_key : string;
  project_id : string
}.

Record Credentials : Type := mkCredentials { access_token : string }.

(** What the outside world answers during one run of the pipeline, and
    what the runtime makes of the options of a request: [https.request]
    checks the path and the header values it is given before it creates
    the request, and throws when it refuses them ([request_error] is
    then the exception; [None] when the options are accepted). *)
Record Env : Type := mkEnv {
  serviceAccount : ServiceAccount;
  users : string -> Error + DocumentSnapshot User.data;
  subjects : string -> string -> Error + DocumentSnapshot Subject.data;
  jwt : string -> string -> list string -> Error + Credentials;
  request_error : RequestOptions -> option Error;
  now : Date.t;
  localTZA : Z
}.

(** ** The program *)

Local Open Scope async_scope.

(** [await db.collection('users').doc(uid).get()] *)
Definition get_user (env : Env) (uid : string) : Async (DocumentSnapshot User.data) :=
  emit (GetUser uid) ;; answer (users env uid).

(** [await db.collection('users').doc(uid).collection('subjects').doc(subjectId).get()] *)
Definition get_subject (env : Env) (uid subjectId : string)
    : Async (DocumentSnapshot Subject.data) :=
  emit (GetSubject uid subjectId) ;; answer (subjects env uid subjectId).

(** [await new google.auth.JWT({email, key, scopes}).authorize()] *)
Definition authorize (env : Env) (email key : string) (scopes : list string)
    : Async Credentials :=
  emit (Authorize email key scopes) ;; answer (jwt env email key scopes).

(** The listener of the response: the chunks are appended to
    [responseData], and on ['end'] the status code decides the log line. *)
Definition on_end (userId : string) (res : IncomingMessage) : Async unit :=
  let responseData := fold_left append (chunks res) "" in
  if statusCode res =? 200 then
    console_log ("✅ Data message sent to " ++ userId)
  else
    console_log ("❌ FCM Error Status: " ++ Js.of_Z (statusCode res)
                   ++ ", Response: " ++ responseData).

(** [req.on('error', ...)] *)
Definition on_request_error (userId : string) (error : Error) : Async unit :=
  console_error ("❌ FCM Request failed for " ++ userId ++ ":") (message error).

(** The object literal that is sent. *)
Definition fcm_message (fcmToken notificationTitle notificationBody imageUrl clickLink : string)
    : JSON.t :=
  JSON.Obj [
    ("message", JSON.Obj [
      ("token", JSON.Str fcmToken);
      ("data", JSON.Obj [
        ("title", JSON.Str notificationTitle);
        ("body", JSON.Str notificationBody);
        ("image", JSON.Str imageUrl);
        ("link", JSON.Str (Js.or_str clickLink ""))
      ]);
      ("android", JSON.Obj [
        ("priority", JSON.Str "high")
      ])
    ])
  ].

Definition request_options (account : ServiceAccount) (tokens : Credentials) (data : string)
    : RequestOptions :=
  {| hostname := "fcm.googleapis.com";
     port := 443;
     path := "/v1/projects/" ++ project_id account ++ "/messages:send";
     method := "POST";
     headers := {| Authorization := "Bearer " ++ access_token tokens;
                   Content_Type := "application/json";
                   Content_Length := Js.length data |} |}.

Definition messaging_scope : string := "https://www.googleapis.com/auth/firebase.messaging".

(** [const req = https.request(options, (res) => ...); req.on('error',
    ...); req.write(data); req.end()]: the call throws on options that
    the runtime refuses, and no request exists then; otherwise the
    request is made with its two listeners and its body. *)
Definition https_request (env : Env) (options : RequestOptions) (data : string)
    (on_response : IncomingMessage -> Async unit) (on_error : Error -> Async unit)
    : Async unit :=
  match request_error env options with
  | Some err => throw err
  | None => emit (HttpsRequest options data on_response on_error)
  end.

Definition sendVisibleNotification (env : Env)
    (userId fcmToken status subjectName date imageUrl clickLink : string) : Async unit :=
  try_catch
    (console_log "🔄 Getting access token..." ;;
     tokens <- authorize env (client_email (serviceAccount env))
                 (private_key (serviceAccount env)) [messaging_scope] ;;
     console_log "✅ Access token obtained" ;;
     let notificationTitle := "Attendance Update" in
     let notificationBody :=
       "Marked " ++ status ++ " for " ++ subjectName ++ " on " ++ date in
     if (imageUrl =? "")%string then
       console_log "⚠️ No image available, skipping notification"
     else
       let message := fcm_message fcmToken notificationTitle notificationBody
                        imageUrl clickLink in
       console_log ("🖼️ Sending data-only message with image: " ++ imageUrl) ;;
       let data := JSON.stringify message in
       let options := request_options (serviceAccount env) tokens data in
       https_request env options data (on_end userId) (on_request_error userId))
    (fun err =>
       console_error ("❌ Error sending notification to " ++ userId ++ ":") (message err)).

Definition date_options : Date.Options :=
  {| Date.day := Date.day_2_digit;
     Date.month := Date.month_short;
     Date.year := Date.year_numeric |}.

(** [subjectDoc.exists ? subjectDoc.data().name || subjectId : subjectId] *)
Definition subject_name (subjectDoc : DocumentSnapshot Subject.data) (subjectId : string)
    : string :=
  match subjectDoc with
  | Some d => Js.or_else (Subject.name d) subjectId
  | None => subjectId
  end.

(** [data.dateTime ? data.dateTime.toDate() : new Date()] *)
Definition event_date (env : Env) (data : Notification.data) : Date.t :=
  match Notification.dateTime data with
  | Some ts => toDate ts
  | None => now env
  end.

Definition formatted_date (env : Env) (data : Notification.data) : string :=
  Date.toLocaleDateString Date.en_IN date_options (localTZA env) (event_date env data).

(** The body of the callback of [forEach]: what a run of it does for one
    change, [await] being sequencing.  (The callback as committed lacks
    the [async] that its [await]s need, so the committed file makes no
    such run.) *)
Definition on_change (env : Env) (change : DocumentChange) : Async unit :=
  match type change with
  | added =>
      let data := doc change in
      let uid := Notification.uid data in
      let subjectId := Notification.subjectId data in
      let status := Notification.status data in
      if negb (Js.truthy uid) || negb (Js.truthy subjectId) || negb (Js.truthy status)
      then ret tt
      else
        console_log ("🔔 New notification for " ++ Js.str uid ++ ": " ++ Js.str status
                       ++ " - " ++ Js.str subjectId) ;;
        try_catch
          (userDoc <- get_user env (Js.str uid) ;;
           match userDoc with
           | None => console_log ("❌ User " ++ Js.str uid ++ " not found")
           | Some userData =>
               let fcmToken := User.fcmToken userData in
               let imageUrl := Js.or_else (User.image_1 userData) "" in
               let clickLink := Js.or_else (User.link_1 userData) "" in
               if negb (Js.truthy fcmToken) then
                 console_log ("❌ No FCM token for user " ++ Js.str uid)
               else
                 subjectDoc <- get_subject env (Js.str uid) (Js.str subjectId) ;;
                 let subjectName := subject_name subjectDoc (Js.str subjectId) in
                 let formattedDate := formatted_date env data in
                 sendVisibleNotification env (Js.str uid) (Js.str fcmToken) (Js.str status)
                   subjectName formattedDate imageUrl clickLink
           end)
          (fun err =>
             console_error ("❌ Error processing notification for " ++ Js.str uid ++ ":")
               (message err))
  | modified | removed => ret tt
  end.

(** [changes.forEach(callback)]: the callback is applied to each change
    and its index; what the calls return is not used by the caller, so
    the results are kept side by side. *)
Fixpoint forEach {A : Type} (callback : DocumentChange -> nat -> A) (i : nat)
    (changes : list DocumentChange) : list A :=
  match changes with
  | [] => []
  | change :: rest => callback change i :: forEach callback (S i) rest
  end.

(** The listener of [onSnapshot]: one run of the callback per change of
    the batch, each in the world it meets.  The promises are not
    awaited. *)
Definition onSnapshot (world : nat -> Env) (docChanges : list DocumentChange)
    : list (Async unit) :=
  forEach (fun change i => on_change (world i) change) 0%nat docChanges.

(** ** The runtime's side of a request

    What the gateway does with a request: it answers, or the transport
    fails. *)
Definition Gateway : Type := RequestOptions -> string -> Error + IncomingMessage.

(** Delivery of the outcome of one effect, if it is a request, to the
    listeners registered on it. *)
Definition deliver (gateway : Gateway) (e : Effect) : Async unit :=
  match e with
  | HttpsRequest options data on_response on_error =>
      match gateway options data with
      | inr res => on_response res
      | inl err => on_error err
      end
  | _ => ret tt
  end.

Fixpoint deliver_all (gateway : Gateway) (effects : list Effect) : Async unit :=
  match effects with
  | [] => ret tt
  | e :: rest => deliver gateway e ;; deliver_all gateway rest
  end.

(** One change from the callback to the end of its request: the run of
    the callback, then, once it has returned, the listeners of the
    requests it made.  The settlement is that of the listeners: an
    exception thrown there would be caught by nobody. *)
Definition run_change (env : Env) (gateway : Gateway) (change : DocumentChange)
    : Async unit :=
  let run := on_change env change in
  (trace run, settled run) ;; deliver_all gateway (trace run).

(** A batch, each change with the gateway's answer to its request. *)
Definition run_snapshot (world : nat -> Env) (gateway : nat -> Gateway)
    (docChanges : list DocumentChange) : list (Async unit) :=
  forEach (fun change i => run_change (world i) (gateway i) change) 0%nat docChanges.

(** ** Observations on a trace *)

Definition is_request (e : Effect) : bool :=
  match e with
  | HttpsRequest _ _ _ _ => true
  | _ => false
  end.

Definition is_log (e : Effect) : bool :=
  match e with
  | ConsoleLog _ | ConsoleError _ _ => true
  | _ => false
  end.

Definition requests (effects : list Effect) : list Effect := filter is_request effects.

(** The calls to outside services, without the log lines. *)
Definition calls (effects : list Effect) : list Effect :=
  filter (fun e => negb (is_log e)) effects.

(** The spec's words: a field is present and non-empty. *)
Definition present (v : Js.value) : Prop := exists s, v = Some s /\ s <> "".

(** ** The paths of the callback

    Every way a run of the callback can go on one change, with the
    trace it leaves.  [on_change_path] shows that each run is one of
    them. *)

Section Paths.

Variable env : Env.
Variable change : DocumentChange.

Let data := doc change.
Let uid := Js.str (Notification.uid data).
Let subjectId := Js.str (Notification.subjectId data).
Let status := Js.str (Notification.status data).
Let account := serviceAccount env.

(** The record has its three fields and the change is an addition. *)
Definition accepted : Prop :=
  type change = added /\
  Js.truthy (Notification.uid data) = true /\
  Js.truthy (Notification.subjectId data) = true /\
  Js.truthy (Notification.status data) = true.

Definition line_new : Effect :=
  ConsoleLog ("🔔 New notification for " ++ uid ++ ": " ++ status ++ " - " ++ subjectId).

Definition line_processing_failed (e : Error) : Effect :=
  ConsoleError ("❌ Error processing notification for " ++ uid ++ ":") (message e).

Definition line_sending_failed (e : Error) : Effect :=
  ConsoleError ("❌ Error sending notification to " ++ uid ++ ":") (message e).

Definition token_request : Effect :=
  Authorize (client_email account) (private_key account) [messaging_scope].

(** The body that is posted for a recipient and a resolved subject. *)
Definition body_for (u : User.data) (subjectDoc : DocumentSnapshot Subject.data) : string :=
  JSON.stringify
    (fcm_message (Js.str (User.fcmToken u)) "Attendance Update"
       ("Marked " ++ status ++ " for " ++ subject_name subjectDoc subjectId
          ++ " on " ++ formatted_date env data)
       (Js.str (User.image_1 u)) (Js.or_else (User.link_1 u) "")).

Definition post_for (u : User.data) (subjectDoc : DocumentSnapshot Subject.data)
    (tokens : Credentials) : Effect :=
  HttpsRequest (request_options account tokens (body_for u subjectDoc))
    (body_for u subjectDoc) (on_end uid) (on_request_error uid).

Inductive Path : Async unit -> Prop :=
| path_other_type :
    type change <> added ->
    Path ([], inr tt)
| path_missing_field :
    type change = added ->
    Js.truthy (Notification.uid data) && Js.truthy (Notification.subjectId data)
      && Js.truthy (Notification.status data) = false ->
    Path ([], inr tt)
| path_user_lookup_failed e :
    accepted ->
    users env uid = inl e ->
    Path ([line_new; GetUser uid; line_processing_failed e], inr tt)
| path_user_not_found :
    accepted ->
    users env uid = inr None ->
    Path ([line_new; GetUser uid; ConsoleLog ("❌ User " ++ uid ++ " not found")], inr tt)
| path_no_push_token u :
    accepted ->
    users env uid = inr (Some u) ->
    Js.truthy (User.fcmToken u) = false ->
    Path ([line_new; GetUser uid; ConsoleLog ("❌ No FCM token for user " ++ uid)], inr tt)
| path_subject_lookup_failed u e :
    accepted ->
    users env uid = inr (Some u) ->
    Js.truthy (User.fcmToken u) = true ->
    subjects env uid subjectId = inl e ->
    Path ([line_new; GetUser uid; GetSubject uid subjectId; line_processing_failed e],
          inr tt)
| path_token_exchange_failed u subjectDoc e :
    accepted ->
    users env uid = inr (Some u) ->
    Js.truthy (User.fcmToken u) = true ->
    subjects env uid subjectId = inr subjectDoc ->
    jwt env (client_email account) (private_key account) [messaging_scope] = inl e ->
    Path ([line_new; GetUser uid; GetSubject uid subjectId;
           ConsoleLog "🔄 Getting access token..."; token_request;
           line_sending_failed e], inr tt)
| path_no_image u subjectDoc tokens :
    accepted ->
    users env uid = inr (Some u) ->
    Js.truthy (User.fcmToken u) = true ->
    subjects env uid subjectId = inr subjectDoc ->
    jwt env (client_email account) (private_key account) [messaging_scope] = inr tokens ->
    Js.truthy (User.image_1 u) = false ->
    Path ([line_new; GetUser uid; GetSubject uid subjectId;
           ConsoleLog "🔄 Getting access token..."; token_request;
           ConsoleLog "✅ Access token obtained";
           ConsoleLog "⚠️ No image available, skipping notification"], inr tt)
| path_request_refused u subjectDoc tokens e :
    accepted ->
    users env uid = inr (Some u) ->
    Js.truthy (User.fcmToken u) = true ->
    subjects env uid subjectId = inr subjectDoc ->
    jwt env (client_email account) (private_key account) [messaging_scope] = inr tokens ->
    Js.truthy (User.image_1 u) = true ->
    request_error env (request_options account tokens (body_for u subjectDoc)) = Some e ->
    Path ([line_new; GetUser uid; GetSubject uid subjectId;
           ConsoleLog "🔄 Getting access token..."; token_request;
           ConsoleLog "✅ Access token obtained";
           ConsoleLog ("🖼️ Sending data-only message with image: "
                         ++ Js.str (User.image_1 u));
           line_sending_failed e], inr tt)
| path_sent u subjectDoc tokens :
    accepted ->
    users env uid = inr (Some u) ->
    Js.truthy (User.fcmToken u) = true ->
    subjects env uid subjectId = inr subjectDoc ->
    jwt env (client_email account) (private_key account) [messaging_scope] = inr tokens ->
    Js.truthy (User.image_1 u) = true ->
    request_error env (request_options account tokens (body_for u subjectDoc)) = None ->
    Path ([line_new; GetUser uid; GetSubject uid subjectId;
           ConsoleLog "🔄 Getting access token..."; token_request;
           ConsoleLog "✅ Access token obtained";
           ConsoleLog ("🖼️ Sending data-only message with image: "
                         ++ Js.str (User.image_1 u));
           post_for u subjectDoc tokens], inr tt).

End Paths.

(** ** Vocabulary of the properties *)

Section Vocabulary.

Variable env : Env.
Variable change : DocumentChange.

Let data := doc change.
Let uid := Js.str (Notification.uid data).
Let subjectId := Js.str (Notification.subjectId data).

(** The record carries recipient, subject and status. *)
Definition well_formed : Prop :=
  present (Notification.uid data) /\
  present (Notification.subjectId data) /\
  present (Notification.status data).

(** The recipient's profile is [u]: the lookup found it. *)
Definition recipient_is (u : User.data) : Prop := users env uid = inr (Some u).

(** All five: the three fields of the record, and the recipient's push
    token and image URL. *)
Definition complete : Prop :=
  well_formed /\
  exists u, recipient_is u /\ present (User.fcmToken u) /\ present (User.image_1 u).

(** One of the five is absent or empty. *)
Definition incomplete : Prop :=
  ~ present (Notification.uid data) \/
  ~ present (Notification.subjectId data) \/
  ~ present (Notification.status data) \/
  (forall u, recipient_is u ->
     ~ present (User.fcmToken u) \/ ~ present (User.image_1 u)).

(** The answer to the subject lookup of this run. *)
Definition subject_lookup : Error + DocumentSnapshot Subject.data :=
  subjects env uid subjectId.

(** The token exchange of this run. *)
Definition token_exchange : Error + Credentials :=
  jwt env (client_email (serviceAccount env)) (private_key (serviceAccount env))
    [messaging_scope].

End Vocabulary.

(** ** A scenario

    Record [{uid: u1, subjectId: s1, status: Present}], recipient
    [{fcmToken: tok1, image_1: img.png}], subject [{name: Maths}]; the
    clock stands at 2024-03-05T00:53:20Z and local time is UTC+05:30. *)

Module Scenario.

Definition account : ServiceAccount :=
  {| client_email := "svc@project.iam"; private_key := "KEY"; project_id := "attendance" |}.

Definition recipient : User.data :=
  {| User.fcmToken := Some "tok1"; User.image_1 := Some "img.png"; User.link_1 := None |}.

Definition recipient_without_image : User.data :=
  {| User.fcmToken := Some "tok1"; User.image_1 := None; User.link_1 := None |}.

Definition maths : Subject.data := {| Subject.name := Some "Maths" |}.

Definition world (u : User.data) (exchange : Error + Credentials) : Env :=
  {| serviceAccount := account;
     users := fun _ => inr (Some u);
     subjects := fun _ _ => inr (Some maths);
     jwt := fun _ _ _ => exchange;
     request_error := fun _ => None;
     now := 1709600000000;
     localTZA := 19800000 |}.

Definition granted : Error + Credentials := inr {| access_token := "ya29.token" |}.
Definition refused : Error + Credentials := inl {| message := "invalid_grant" |}.

Definition env : Env := world recipient granted.
Definition env_without_image : Env := world recipient_without_image granted.
Definition env_refused : Env := world recipient refused.

Definition record : Notification.data :=
  {| Notification.uid := Some "u1";
     Notification.subjectId := Some "s1";
     Notification.status := Some "Present";
     Notification.dateTime := None |}.

Definition record_without_status : Notification.data :=
  {| Notification.uid := Some "u1";
     Notification.subjectId := Some "s1";
     Notification.status := None;
     Notification.dateTime := None |}.

(** 2024-03-05T12:30:00Z *)
Definition noon_5_march_2024 : Timestamp := {| toDate := 1709641800000 |}.

Definition dated_record : Notification.data :=
  {| Notification.uid := Some "u1";
     Notification.subjectId := Some "s1";
     Notification.status := Some "Present";
     Notification.dateTime := Some noon_5_march_2024 |}.

Definition change : DocumentChange := {| type := added; doc := record |}.
Definition dated_change : DocumentChange := {| type := added; doc := dated_record |}.
Definition malformed : DocumentChange := {| type := added; doc := record_without_status |}.

Definition not_found : Gateway :=
  fun _ _ => inr {| statusCode := 404; chunks := ["NOT_"; "FOUND"] |}.
Definition ok : Gateway :=
  fun _ _ => inr {| statusCode := 200; chunks := ["{}"] |}.
Definition unreachable : Gateway :=
  fun _ _ => inl {| message := "ECONNRESET" |}.

End Scenario.

(** ** Further observations *)

Definition is_exchange (e : Effect) : bool :=
  match e with
  | Authorize _ _ _ => true
  | _ => false
  end.

(** The token exchanges of a trace. *)
Definition exchanges (effects : list Effect) : list Effect := filter is_exchange effects.

(** What a trace writes to the console. *)
Definition logs (effects : list Effect) : list Effect := filter is_log effects.

(** Over the runs of a batch, how many effects of one kind. *)
Definition total (kind : list Effect -> list Effect) (runs : list (Async unit)) : nat :=
  list_sum (map (fun run => List.length (kind (trace run))) runs).

(** ** More worlds for the scenario's record *)

Module Cases.

Definition recipient_without_token : User.data :=
  {| User.fcmToken := Some ""; User.image_1 := Some "img.png"; User.link_1 := Some "app://x" |}.

Definition unavailable : Error := {| message := "UNAVAILABLE" |}.

(** Nobody is known. *)
Definition env_unknown : Env :=
  {| serviceAccount := Scenario.account;
     users := fun _ => inr None;
     subjects := fun _ _ => inr (Some Scenario.maths);
     jwt := fun _ _ _ => Scenario.granted;
     request_error := fun _ => None;
     now := 1709600000000;
     localTZA := 19800000 |}.

Definition env_without_token : Env :=
  Scenario.world recipient_without_token Scenario.granted.

(** The recipient lookup fails. *)
Definition env_users_down : Env :=
  {| serviceAccount := Scenario.account;
     users := fun _ => inl unavailable;
     subjects := fun _ _ => inr (Some Scenario.maths);
     jwt := fun _ _ _ => Scenario.granted;
     request_error := fun _ => None;
     now := 1709600000000;
     localTZA := 19800000 |}.

(** The subject lookup fails. *)
Definition env_subjects_down : Env :=
  {| serviceAccount := Scenario.account;
     users := fun _ => inr (Some Scenario.recipient);
     subjects := fun _ _ => inl unavailable;
     jwt := fun _ _ _ => Scenario.granted;
     request_error := fun _ => None;
     now := 1709600000000;
     localTZA := 19800000 |}.

Definition modified_change : DocumentChange := {| type := modified; doc := Scenario.record |}.
Definition removed_change : DocumentChange := {| type := removed; doc := Scenario.record |}.

End Cases.

(** ** What the console can tell apart *)

(** Two answers of a service that fail with the same message, or both
    succeed. *)
Definition outcome_alike {A : Type} (r r' : Error + A) : Prop :=
  match r, r' with
  | inl e, inl e' => message e = message e'
  | inr _, inr _ => True
  | _, _ => False
  end.

(** Two answers of the recipient lookup: the same failure, or no
    document in both, or two documents with the same image whose push
    tokens are both usable or both not. *)
Definition users_alike (r r' : Error + DocumentSnapshot User.data) : Prop :=
  match r, r' with
  | inl e, inl e' => message e = message e'
  | inr None, inr None => True
  | inr (Some u), inr (Some u') =>
      Js.truthy (User.fcmToken u) = Js.truthy (User.fcmToken u') /\
      User.image_1 u = User.image_1 u'
  | _, _ => False
  end.

(** Two verdicts of the runtime on the options of a request: accepted
    in both, or refused with the same message. *)
Definition verdict_alike (r r' : option Error) : Prop :=
  match r, r' with
  | Some e, Some e' => message e = message e'
  | None, None => True
  | _, _ => False
  end.

(** Two outcomes of a request: transport errors with the same message,
    or responses with the same status code and the same body. *)
Definition answer_alike (r r' : Error + IncomingMessage) : Prop :=
  match r, r' with
  | inl e, inl e' => message e = message e'
  | inr res, inr res' =>
      statusCode res = statusCode res' /\
      String.concat "" (chunks res) = String.concat "" (chunks res')
  | _, _ => False
  end.

(** A gateway that sends back, as the body of a 401, the Authorization
    header it was given. *)
Definition echoing : Gateway :=
  fun options _ =>
    inr {| statusCode := 401; chunks := [Authorization (headers options)] |}.

(** The scenario's world with every secret changed: another service
    account, push token, link, subject name, bearer token, clock and
    time zone. *)
Module Disguise.

Definition recipient : User.data :=
  {| User.fcmToken := Some "another-device";
     User.image_1 := Some "img.png";
     User.link_1 := Some "https://example.org/attendance" |}.

Definition env : Env :=
  {| serviceAccount := {| client_email := "other@elsewhere.iam";
                          private_key := "OTHER KEY";
                          project_id := "elsewhere" |};
     users := fun _ => inr (Some recipient);
     subjects := fun _ _ => inr (Some {| Subject.name := Some "Physics" |});
     jwt := fun _ _ _ => inr {| access_token := "ya29.other" |};
     request_error := fun _ => None;
     now := 0;
     localTZA := 0 |}.

End Disguise.

(** ** Bytes on the wire

    [req.write(data)] sends the string as UTF-8: one byte per element of
    the [string] that stands for it. *)

Module Utf8.

Definition is_ascii_byte (c : ascii) : bool := (N_of_ascii c <? 128)%N.

Definition is_continuation (c : ascii) : bool :=
  (128 <=? N_of_ascii c)%N && (N_of_ascii c <? 192)%N.

Fixpoint is_ascii (s : string) : bool :=
  match s with
  | EmptyString => true
  | String c s' => is_ascii_byte c && is_ascii s'
  end.

(** The text is a sequence of characters: every lead byte is followed
    by as many continuation bytes as it announces. *)
Fixpoint well_formed (s : string) : bool :=
  match s with
  | EmptyString => true
  | String c rest =>
      let n := N_of_ascii c in
      if (n <? 128)%N then well_formed rest
      else if (n <? 192)%N then false
      else if (n <? 224)%N then
        match rest with
        | String c1 r => is_continuation c1 && well_formed r
        | _ => false
        end
      else if (n <? 240)%N then
        match rest with
        | String c1 (String c2 r) =>
            is_continuation c1 && is_continuation c2 && well_formed r
        | _ => false
        end
      else if (n <? 248)%N then
        match rest with
        | String c1 (String c2 (String c3 r)) =>
            is_continuation c1 && is_continuation c2 && is_continuation c3
              && well_formed r
        | _ => false
        end
      else false
  end.

(** Number of bytes written for a string. *)
Definition byte_length (s : string) : N := N.of_nat (String.length s).

End Utf8.

(** The scenario with a service account whose project id holds a
    space: the path of the request is one that the runtime refuses. *)
Module Unescaped.

Definition account : ServiceAccount :=
  {| client_email := "svc@project.iam"; private_key := "KEY"; project_id := "my project" |}.

Definition refusal : Error := {| message := "Request path contains unescaped characters" |}.

Fixpoint has_space (s : string) : bool :=
  match s with
  | EmptyString => false
  | String c s' => (N_of_ascii c =? 32)%N || has_space s'
  end.

Definition env : Env :=
  {| serviceAccount := account;
     users := fun _ => inr (Some Scenario.recipient);
     subjects := fun _ _ => inr (Some Scenario.maths);
     jwt := fun _ _ _ => Scenario.granted;
     request_error := fun options => if has_space (path options) then Some refusal else None;
     now := 1709600000000;
     localTZA := 19800000 |}.

End Unescaped.

(** The scenario with a subject whose name is not ASCII. *)
Module Accented.

Definition subject : Subject.data := {| Subject.name := Some "Français" |}.

Definition env : Env :=
  {| serviceAccount := Scenario.account;
     users := fun _ => inr (Some Scenario.recipient);
     subjects := fun _ _ => inr (Some subject);
     jwt := fun _ _ _ => Scenario.granted;
     request_error := fun _ => None;
     now := 1709600000000;
     localTZA := 19800000 |}.

End Accented.

(** The values of the record and of the documents that the program
    puts into the body: push token, status, resolved subject name, image
    and link. *)
Definition body_fields (change : DocumentChange) (u : User.data)
    (subjectDoc : DocumentSnapshot Subject.data) : list string :=
  [Js.str (User.fcmToken u);
   Js.str (Notification.status (doc change));
   subject_name subjectDoc (Js.str (Notification.subjectId (doc change)));
   Js.str (User.image_1 u);
   Js.or_else (User.link_1 u) ""].

(** * Properties *)

Example stringify_nested :
  JSON.stringify (JSON.Obj [("a", JSON.Str "x"); ("b", JSON.Obj [("c", JSON.Str "y")])])
  = "{" ++ JSON.quote "a" ++ ":" ++ JSON.quote "x" ++ "," ++ JSON.quote "b" ++ ":{"
        ++ JSON.quote "c" ++ ":" ++ JSON.quote "y" ++ "}}".
Proof. reflexivity. Qed.

(** The scenario of the spec, in a run of the callback: one request,
    with this body. *)
Example scenario_body :
  map (fun e => match e with HttpsRequest _ data _ _ => data | _ => "" end)
      (requests (trace (on_change Scenario.env Scenario.change)))
  = ["{" ++ JSON.quote "message" ++ ":{"
       ++ JSON.quote "token" ++ ":" ++ JSON.quote "tok1" ++ ","
       ++ JSON.quote "data" ++ ":{"
       ++ JSON.quote "title" ++ ":" ++ JSON.quote "Attendance Update" ++ ","
       ++ JSON.quote "body" ++ ":" ++ JSON.quote "Marked Present for Maths on 05 Mar 2024"
       ++ "," ++ JSON.quote "image" ++ ":" ++ JSON.quote "img.png" ++ ","
       ++ JSON.quote "link" ++ ":" ++ JSON.quote "" ++ "},"
       ++ JSON.quote "android" ++ ":{" ++ JSON.quote "priority" ++ ":"
       ++ JSON.quote "high" ++ "}}}"].
Proof. reflexivity. Qed.

Example scenario_without_image :
  requests (trace (on_change Scenario.env_without_image Scenario.change)) = [].
Proof. reflexivity. Qed.

(** A project id with a space: the request is refused, none is made. *)
Example scenario_unescaped_path :
  requests (trace (on_change Unescaped.env Scenario.change)) = [] /\
  In (ConsoleError "❌ Error sending notification to u1:"
        "Request path contains unescaped characters")
     (trace (on_change Unescaped.env Scenario.change)).
Proof. split; [reflexivity|]. cbn. do 7 right. left. reflexivity. Qed.

Example escape_control :
  JSON.escape_all (String "010" (String "001" (String "034" "\")))
  = "\n\u0001\" ++ JSON.dquote ++ "\\".
Proof. reflexivity. Qed.

Example civil_epoch : Date.civil 0 = (1970, 1, 1).
Proof. reflexivity. Qed.

Example civil_leap_day : Date.civil 19782 = (2024, 2, 29).
Proof. reflexivity. Qed.

Example civil_before_epoch : Date.civil (-1) = (1969, 12, 31).
Proof. reflexivity. Qed.

Example civil_2000 : Date.civil 11016 = (2000, 2, 29) /\ Date.civil 11017 = (2000, 3, 1).
Proof. split; reflexivity. Qed.

Example civil_1900 : Date.civil (-25509) = (1900, 2, 28) /\ Date.civil (-25508) = (1900, 3, 1).
Proof. split; reflexivity. Qed.

(** ** Truthiness *)

Lemma truthy_present (v : Js.value) : Js.truthy v = true <-> present v.
Proof.
  unfold present; destruct v as [s|]; cbn.
  - destruct (String.eqb_spec s ""); cbn; split.
    + discriminate.
    + intros (s' & Hs & Hne); injection Hs as <-; contradiction.
    + intros _; exists s; auto.
    + reflexivity.
  - split; [discriminate | intros (s & Hs & _); discriminate].
Qed.

Lemma falsy_not_present (v : Js.value) : Js.truthy v = false <-> ~ present v.
Proof.
  rewrite <- truthy_present; destruct (Js.truthy v); split; intros H;
    congruence.
Qed.

Lemma or_else_empty (v : Js.value) :
  (Js.or_else v "" =? "")%string = negb (Js.truthy v).
Proof.
  unfold Js.or_else; destruct v as [s|]; cbn; [|reflexivity].
  destruct (String.eqb_spec s "") as [->|Hne]; cbn; [reflexivity|].
  destruct (String.eqb_spec s ""); [contradiction | reflexivity].
Qed.

Lemma or_else_truthy (v : Js.value) (d : string) :
  Js.truthy v = true -> Js.or_else v d = Js.str v.
Proof. unfold Js.or_else; intros ->; reflexivity. Qed.

Lemma or_str_empty (s : string) : Js.or_str s "" = s.
Proof. unfold Js.or_str; destruct (String.eqb_spec s ""); congruence. Qed.

(** ** The runs of [sendVisibleNotification] *)

Section Send.

Variable env : Env.
Variables userId fcmToken status subjectName date imageUrl clickLink : string.

Let account := serviceAccount env.
Let exchange := jwt env (client_email account) (private_key account) [messaging_scope].
Let request := Authorize (client_email account) (private_key account) [messaging_scope].
Let send :=
  sendVisibleNotification env userId fcmToken status subjectName date imageUrl clickLink.

Lemma send_exchange_failed e :
  exchange = inl e ->
  send = ([ConsoleLog "🔄 Getting access token..."; request;
           ConsoleError ("❌ Error sending notification to " ++ userId ++ ":") (message e)],
          inr tt).
Proof.
  unfold send, exchange, request, account, sendVisibleNotification, authorize.
  intros H. unfold try_catch, bind, answer, settled, trace; cbn. rewrite H. reflexivity.
Qed.

Lemma send_without_image tokens :
  exchange = inr tokens ->
  imageUrl = "" ->
  send = ([ConsoleLog "🔄 Getting access token..."; request;
           ConsoleLog "✅ Access token obtained";
           ConsoleLog "⚠️ No image available, skipping notification"], inr tt).
Proof.
  unfold send, exchange, request, account, sendVisibleNotification, authorize.
  intros H ->. unfold try_catch, bind, answer, settled, trace; cbn. rewrite H. reflexivity.
Qed.

Let data :=
  JSON.stringify
    (fcm_message fcmToken "Attendance Update"
       ("Marked " ++ status ++ " for " ++ subjectName ++ " on " ++ date)
       imageUrl clickLink).

Lemma send_request_refused tokens e :
  exchange = inr tokens ->
  imageUrl <> "" ->
  request_error env (request_options account tokens data) = Some e ->
  send = ([ConsoleLog "🔄 Getting access token..."; request;
           ConsoleLog "✅ Access token obtained";
           ConsoleLog ("🖼️ Sending data-only message with image: " ++ imageUrl);
           ConsoleError ("❌ Error sending notification to " ++ userId ++ ":") (message e)],
          inr tt).
Proof.
  unfold send, exchange, request, account, data, sendVisibleNotification, authorize,
    https_request.
  intros H Hne Hreq. apply String.eqb_neq in Hne.
  rewrite H, Hne. unfold try_catch, bind, answer, settled, trace.
  cbn -[request_options JSON.stringify fcm_message append]. rewrite Hreq. reflexivity.
Qed.

Lemma send_with_image tokens :
  exchange = inr tokens ->
  imageUrl <> "" ->
  request_error env (request_options account tokens data) = None ->
  send = ([ConsoleLog "🔄 Getting access token..."; request;
           ConsoleLog "✅ Access token obtained";
           ConsoleLog ("🖼️ Sending data-only message with image: " ++ imageUrl);
           HttpsRequest (request_options account tokens data) data
             (on_end userId) (on_request_error userId)], inr tt).
Proof.
  unfold send, exchange, request, account, data, sendVisibleNotification, authorize,
    https_request.
  intros H Hne Hreq. apply String.eqb_neq in Hne.
  rewrite H, Hne. unfold try_catch, bind, answer, settled, trace.
  cbn -[request_options JSON.stringify fcm_message append]. rewrite Hreq. reflexivity.
Qed.

End Send.

(** ** Every run is one of the paths *)

#[local] Arguments sendVisibleNotification : simpl never.
#[local] Arguments JSON.stringify : simpl never.
#[local] Arguments formatted_date : simpl never.

Ltac step := unfold bind, try_catch, answer, settled, trace; cbn.

Lemma on_change_path (env : Env) (change : DocumentChange) :
  Path env change (on_change env change).
Proof.
  destruct change as [ty data]; destruct ty;
    try (apply path_other_type; discriminate).
  unfold on_change; cbn [type doc].
  destruct (Js.truthy (Notification.uid data)) eqn:Huid;
    [| apply path_missing_field; cbn; rewrite ?Huid; reflexivity].
  destruct (Js.truthy (Notification.subjectId data)) eqn:Hsid;
    [| apply path_missing_field; cbn; rewrite ?Huid, ?Hsid; reflexivity].
  destruct (Js.truthy (Notification.status data)) eqn:Hst;
    [| apply path_missing_field; cbn; rewrite ?Huid, ?Hsid, ?Hst; reflexivity].
  assert (Hacc : accepted {| type := added; doc := data |}) by (repeat split; assumption).
  cbn [negb orb].
  unfold get_user, get_subject, console_log, console_error.
  destruct (users env (Js.str (Notification.uid data))) as [e | [u |]] eqn:Huser.
  - step. now apply path_user_lookup_failed.
  - destruct (Js.truthy (User.fcmToken u)) eqn:Htok.
    + destruct (subjects env (Js.str (Notification.uid data))
                  (Js.str (Notification.subjectId data))) as [e | subjectDoc] eqn:Hsub.
      * step; rewrite ?Htok; step; rewrite ?Hsub; step.
        now apply path_subject_lookup_failed with (u := u).
      * destruct (jwt env (client_email (serviceAccount env))
                    (private_key (serviceAccount env)) [messaging_scope])
          as [e | tokens] eqn:Hjwt.
        -- step; rewrite ?Htok; step; rewrite ?Hsub; step.
           rewrite (send_exchange_failed _ _ _ _ _ _ _ _ e Hjwt); cbn.
           now apply path_token_exchange_failed with (u := u) (subjectDoc := subjectDoc).
        -- destruct (Js.truthy (User.image_1 u)) eqn:Himg.
           ++ step; rewrite ?Htok; step; rewrite ?Hsub; step.
              assert (Hne : Js.or_else (User.image_1 u) "" <> "").
              { apply String.eqb_neq. rewrite or_else_empty, Himg. reflexivity. }
              match goal with
              | |- context [sendVisibleNotification ?env ?a ?b ?c ?d ?e ?f ?g] =>
                  destruct (request_error env
                              (request_options (serviceAccount env) tokens
                                 (JSON.stringify
                                    (fcm_message b "Attendance Update"
                                       ("Marked " ++ c ++ " for " ++ d ++ " on " ++ e)
                                       f g)))) as [err |] eqn:Hreq;
                  [ rewrite (send_request_refused _ _ _ _ _ _ _ _ tokens err Hjwt Hne Hreq)
                  | rewrite (send_with_image _ _ _ _ _ _ _ _ tokens Hjwt Hne Hreq) ]
              end; cbn; rewrite (or_else_truthy _ _ Himg) in *.
              ** now apply path_request_refused with (u := u) (subjectDoc := subjectDoc)
                                                      (tokens := tokens).
              ** now apply path_sent.
           ++ step; rewrite ?Htok; step; rewrite ?Hsub; step.
              assert (He : Js.or_else (User.image_1 u) "" = "").
              { apply String.eqb_eq. rewrite or_else_empty, Himg. reflexivity. }
              rewrite (send_without_image _ _ _ _ _ _ _ _ tokens Hjwt He); cbn.
              now apply path_no_image with (u := u) (subjectDoc := subjectDoc)
                                           (tokens := tokens).
    + step; rewrite ?Htok; step. now apply path_no_push_token with (u := u).
  - step. now apply path_user_not_found.
Qed.

(** Case analysis on the path of a run. *)
Ltac paths env change :=
  let run := fresh "run" in
  let Hrun := fresh "Hrun" in
  let Hp := fresh "Hp" in
  remember (on_change env change) as run eqn:Hrun;
  pose proof (on_change_path env change) as Hp;
  rewrite <- Hrun in Hp; clear Hrun;
  destruct Hp.

Lemma accepted_well_formed (change : DocumentChange) :
  accepted change -> well_formed change.
Proof.
  intros (_ & Hu & Hs & Hst); repeat split; apply truthy_present; assumption.
Qed.

Lemma not_well_formed_falsy (change : DocumentChange) :
  ~ well_formed change ->
  Js.truthy (Notification.uid (doc change))
    && Js.truthy (Notification.subjectId (doc change))
    && Js.truthy (Notification.status (doc change)) = false.
Proof.
  intros H.
  destruct (Js.truthy (Notification.uid (doc change))) eqn:Hu; [|reflexivity].
  destruct (Js.truthy (Notification.subjectId (doc change))) eqn:Hs; [|reflexivity].
  destruct (Js.truthy (Notification.status (doc change))) eqn:Hst; [|reflexivity].
  exfalso; apply H; repeat split; apply truthy_present; assumption.
Qed.

(** Every run of the callback resolves: nothing is thrown to its caller. *)
Lemma on_change_resolves (env : Env) (change : DocumentChange) :
  settled (on_change env change) = inr tt.
Proof. paths env change; reflexivity. Qed.

(** A request is only on the path [path_sent]. *)
Lemma request_needs_complete (env : Env) (change : DocumentChange) :
  requests (trace (on_change env change)) <> [] -> complete env change.
Proof.
  paths env change; cbn; try congruence.
  intros _. split; [now apply accepted_well_formed|].
  exists u; repeat split; try assumption; apply truthy_present; assumption.
Qed.

(** C8: an added change whose record lacks recipientId, subjectId or
    status is ignored silently: the callback returns at once, having
    performed no lookup, no dispatch and no logging, and nothing happens
    later on its behalf either. *)
Theorem malformed_record_ignored (env : Env) (gateway : Gateway) (change : DocumentChange) :
  type change = added ->
  ~ well_formed change ->
  on_change env change = ([], inr tt) /\
  run_change env gateway change = ([], inr tt).
Proof.
  intros Hadd Hmiss.
  assert (H : on_change env change = ([], inr tt)).
  { apply not_well_formed_falsy in Hmiss.
    unfold on_change; rewrite Hadd; cbn zeta.
    rewrite <- !negb_andb, Hmiss; reflexivity. }
  split; [exact H|].
  unfold run_change; rewrite H; reflexivity.
Qed.

Lemma malformed_record_ignored_witness :
  type Scenario.malformed = added /\
  ~ well_formed Scenario.malformed /\
  on_change Scenario.env Scenario.malformed = ([], inr tt) /\
  run_change Scenario.env Scenario.ok Scenario.malformed = ([], inr tt).
Proof.
  assert (Hmiss : ~ well_formed Scenario.malformed).
  { intros (_ & _ & (s & Hs & _)); discriminate Hs. }
  split; [reflexivity|]. split; [exact Hmiss|].
  exact (malformed_record_ignored Scenario.env Scenario.ok Scenario.malformed
           eq_refl Hmiss).
Defined.

(** ** Strings *)

Lemma append_assoc (a b c : string) : (a ++ b) ++ c = a ++ b ++ c.
Proof. induction a as [|x a IH]; cbn; [reflexivity | now rewrite IH]. Qed.

Lemma append_nil_r (a : string) : a ++ "" = a.
Proof. induction a as [|x a IH]; cbn; [reflexivity | now rewrite IH]. Qed.

Lemma members_string_cons (f : JSON.t -> string) (first : bool) (k : string) (v : JSON.t)
    (ms : list (string * JSON.t)) :
  JSON.members_string f first ((k, v) :: ms)
  = (if first then "" else ",") ++ JSON.quote k ++ ":" ++ f v
      ++ JSON.members_string f false ms.
Proof. reflexivity. Qed.

(** ** C1 *)

Lemma incomplete_not_complete (env : Env) (change : DocumentChange) :
  incomplete env change -> ~ complete env change.
Proof.
  intros Hinc ((Hu & Hs & Hst) & u & Hrec & Htok & Himg).
  destruct Hinc as [H | [H | [H | H]]]; try contradiction.
  destruct (H u Hrec); contradiction.
Qed.

(** C1: a request to the gateway is made only when recipientId,
    subjectId and status of the record and the push token and image URL
    of the recipient are all present and non-empty; when any of them is
    absent or empty the run makes no request, and in every case the
    callback resolves without throwing. *)
Theorem dispatch_only_when_complete (env : Env) (change : DocumentChange) :
  settled (on_change env change) = inr tt /\
  (requests (trace (on_change env change)) <> [] ->
     type change = added /\ complete env change) /\
  (incomplete env change -> requests (trace (on_change env change)) = []).
Proof.
  split; [apply on_change_resolves|]. split.
  - intros H; split; [|now apply request_needs_complete].
    revert H. paths env change; cbn; try congruence.
    intros _. match goal with H : accepted _ |- _ => exact (proj1 H) end.
  - intros Hinc. apply incomplete_not_complete in Hinc.
    destruct (requests (trace (on_change env change))) eqn:Hreq; [reflexivity|].
    exfalso; apply Hinc, request_needs_complete. rewrite Hreq; discriminate.
Qed.

Lemma dispatch_only_when_complete_witness :
  (requests (trace (on_change Scenario.env Scenario.change)) <> [] /\
   complete Scenario.env Scenario.change) /\
  (incomplete Scenario.env_without_image Scenario.change /\
   requests (trace (on_change Scenario.env_without_image Scenario.change)) = []).
Proof.
  split.
  - assert (H : requests (trace (on_change Scenario.env Scenario.change)) <> [])
      by (vm_compute; discriminate).
    split; [exact H|].
    exact (proj2 (proj1 (proj2 (dispatch_only_when_complete
                                   Scenario.env Scenario.change)) H)).
  - assert (H : incomplete Scenario.env_without_image Scenario.change).
    { right; right; right. intros u Hu. right.
      unfold recipient_is in Hu; cbn in Hu. injection Hu as <-.
      intros (s & Hs & _); discriminate Hs. }
    split; [exact H|].
    exact (proj2 (proj2 (dispatch_only_when_complete
                           Scenario.env_without_image Scenario.change)) H).
Defined.

(** ** Runs that pass enrichment *)

Lemma send_resolves (env : Env)
    (userId fcmToken status subjectName date imageUrl clickLink : string) :
  snd (sendVisibleNotification env userId fcmToken status subjectName date
         imageUrl clickLink) = inr tt.
Proof.
  destruct (jwt env (client_email (serviceAccount env)) (private_key (serviceAccount env))
              [messaging_scope]) as [e | tokens] eqn:Hjwt.
  - now rewrite (send_exchange_failed _ _ _ _ _ _ _ _ e Hjwt).
  - destruct (String.eqb_spec imageUrl "") as [He | Hne].
    + now rewrite (send_without_image _ _ _ _ _ _ _ _ tokens Hjwt He).
    + destruct (request_error env
                  (request_options (serviceAccount env) tokens
                     (JSON.stringify
                        (fcm_message fcmToken "Attendance Update"
                           ("Marked " ++ status ++ " for " ++ subjectName ++ " on " ++ date)
                           imageUrl clickLink)))) as [err |] eqn:Hreq.
      * now rewrite (send_request_refused _ _ _ _ _ _ _ _ tokens err Hjwt Hne Hreq).
      * now rewrite (send_with_image _ _ _ _ _ _ _ _ tokens Hjwt Hne Hreq).
Qed.

Lemma accepted_of (change : DocumentChange) :
  type change = added -> well_formed change -> accepted change.
Proof.
  intros Hadd (Hu & Hs & Hst); repeat split; try assumption;
    now apply truthy_present.
Qed.

Section Enriched.

Variable env : Env.
Variable change : DocumentChange.
Variable u : User.data.
Variable subjectDoc : DocumentSnapshot Subject.data.

Let data := doc change.
Let uid := Js.str (Notification.uid data).
Let subjectId := Js.str (Notification.subjectId data).
Let status := Js.str (Notification.status data).

Hypothesis Hadded : type change = added.
Hypothesis Hrecord : well_formed change.
Hypothesis Hrecipient : recipient_is env change u.
Hypothesis Htoken : present (User.fcmToken u).
Hypothesis Hsubject : subject_lookup env change = inr subjectDoc.

(** Recipient and subject were looked up, and the pipeline goes on with
    [sendVisibleNotification]. *)
Lemma run_after_enrichment :
  on_change env change
  = ([line_new change; GetUser uid; GetSubject uid subjectId]
       ++ trace (sendVisibleNotification env uid (Js.str (User.fcmToken u)) status
                   (subject_name subjectDoc subjectId) (formatted_date env data)
                   (Js.or_else (User.image_1 u) "") (Js.or_else (User.link_1 u) "")),
     inr tt)%list.
Proof.
  destruct (accepted_of change Hadded Hrecord) as (_ & Hu & Hs & Hst).
  apply truthy_present in Htoken.
  unfold recipient_is in Hrecipient. unfold subject_lookup in Hsubject.
  unfold on_change. rewrite Hadded. cbn zeta. rewrite Hu, Hs, Hst. cbn [negb orb].
  unfold get_user, get_subject, console_log.
  step. rewrite Hrecipient. step. rewrite Htoken. step. rewrite Hsubject. step.
  rewrite send_resolves. reflexivity.
Qed.

Let exchange := token_exchange env.

Lemma run_token_refused e :
  exchange = inl e ->
  on_change env change
  = ([line_new change; GetUser uid; GetSubject uid subjectId;
      ConsoleLog "🔄 Getting access token..."; token_request env;
      line_sending_failed change e], inr tt).
Proof.
  intros He. rewrite run_after_enrichment.
  now rewrite (send_exchange_failed _ _ _ _ _ _ _ _ e He).
Qed.

Lemma run_without_image tokens :
  exchange = inr tokens ->
  ~ present (User.image_1 u) ->
  on_change env change
  = ([line_new change; GetUser uid; GetSubject uid subjectId;
      ConsoleLog "🔄 Getting access token..."; token_request env;
      ConsoleLog "✅ Access token obtained";
      ConsoleLog "⚠️ No image available, skipping notification"], inr tt).
Proof.
  intros He Himg. apply falsy_not_present in Himg.
  assert (Hempty : Js.or_else (User.image_1 u) "" = "").
  { apply String.eqb_eq. now rewrite or_else_empty, Himg. }
  rewrite run_after_enrichment.
  now rewrite (send_without_image _ _ _ _ _ _ _ _ tokens He Hempty).
Qed.

(** The options of the request of this run. *)
Let options tokens :=
  request_options (serviceAccount env) tokens (body_for env change u subjectDoc).

Lemma run_request_refused tokens e :
  exchange = inr tokens ->
  present (User.image_1 u) ->
  request_error env (options tokens) = Some e ->
  on_change env change
  = ([line_new change; GetUser uid; GetSubject uid subjectId;
      ConsoleLog "🔄 Getting access token..."; token_request env;
      ConsoleLog "✅ Access token obtained";
      ConsoleLog ("🖼️ Sending data-only message with image: " ++ Js.str (User.image_1 u));
      line_sending_failed change e], inr tt).
Proof.
  intros He Himg Hreq. apply truthy_present in Himg.
  assert (Hne : Js.or_else (User.image_1 u) "" <> "").
  { apply String.eqb_neq. now rewrite or_else_empty, Himg. }
  unfold options, body_for in Hreq. rewrite <- (or_else_truthy _ "" Himg) in Hreq.
  rewrite run_after_enrichment.
  rewrite (send_request_refused _ _ _ _ _ _ _ _ tokens e He Hne Hreq).
  now rewrite (or_else_truthy _ _ Himg).
Qed.

Lemma run_with_image tokens :
  exchange = inr tokens ->
  present (User.image_1 u) ->
  request_error env (options tokens) = None ->
  on_change env change
  = ([line_new change; GetUser uid; GetSubject uid subjectId;
      ConsoleLog "🔄 Getting access token..."; token_request env;
      ConsoleLog "✅ Access token obtained";
      ConsoleLog ("🖼️ Sending data-only message with image: " ++ Js.str (User.image_1 u));
      post_for env change u subjectDoc tokens], inr tt).
Proof.
  intros He Himg Hreq. apply truthy_present in Himg.
  assert (Hne : Js.or_else (User.image_1 u) "" <> "").
  { apply String.eqb_neq. now rewrite or_else_empty, Himg. }
  unfold options, body_for in Hreq. rewrite <- (or_else_truthy _ "" Himg) in Hreq.
  rewrite run_after_enrichment.
  rewrite (send_with_image _ _ _ _ _ _ _ _ tokens He Hne Hreq).
  now rewrite (or_else_truthy _ _ Himg).
Qed.

End Enriched.

(** ** C3 *)

(** The first thing the delivery function does to the outside is the
    token exchange, whatever the image URL is. *)
Lemma send_begins_with_exchange (env : Env)
    (userId fcmToken status subjectName date imageUrl clickLink : string) :
  exists rest,
    trace (sendVisibleNotification env userId fcmToken status subjectName date
             imageUrl clickLink)
    = ConsoleLog "🔄 Getting access token..." :: token_request env :: rest.
Proof.
  destruct (jwt env (client_email (serviceAccount env)) (private_key (serviceAccount env))
              [messaging_scope]) as [e | tokens] eqn:Hjwt.
  - rewrite (send_exchange_failed _ _ _ _ _ _ _ _ e Hjwt). eexists; reflexivity.
  - destruct (String.eqb_spec imageUrl "") as [He | Hne].
    + rewrite (send_without_image _ _ _ _ _ _ _ _ tokens Hjwt He). eexists; reflexivity.
    + destruct (request_error env
                  (request_options (serviceAccount env) tokens
                     (JSON.stringify
                        (fcm_message fcmToken "Attendance Update"
                           ("Marked " ++ status ++ " for " ++ subjectName ++ " on " ++ date)
                           imageUrl clickLink)))) as [err |] eqn:Hreq.
      * rewrite (send_request_refused _ _ _ _ _ _ _ _ tokens err Hjwt Hne Hreq).
        eexists; reflexivity.
      * rewrite (send_with_image _ _ _ _ _ _ _ _ tokens Hjwt Hne Hreq).
        eexists; reflexivity.
Qed.

(** C3, as the claim has it, at the delivery function called for the
    scenario's recipient without image, whose image URL is the empty
    string of line 51: the token exchange takes place all the same,
    before the image is looked at. *)
Lemma no_exchange_without_image_counterexample :
  Js.or_else (User.image_1 Scenario.recipient_without_image) "" = "" /\
  trace (sendVisibleNotification Scenario.env_without_image "u1" "tok1" "Present"
           "Maths" "05 Mar 2024" "" "")
  = [ConsoleLog "🔄 Getting access token...";
     Authorize "svc@project.iam" "KEY"
       ["https://www.googleapis.com/auth/firebase.messaging"];
     ConsoleLog "✅ Access token obtained";
     ConsoleLog "⚠️ No image available, skipping notification"].
Proof. split; reflexivity. Defined.

(** C3, amended: in the delivery function the token exchange comes
    first, and the image rule is applied after it: called with an empty
    image URL the function still makes the exchange, then logs the skip
    and makes no request; called with an image it makes the request
    after the exchange.  Whatever a run of the callback does, its calls
    are made in the order recipient lookup, subject lookup, token
    exchange, request. *)
Theorem stages_in_order (env : Env) (change : DocumentChange)
    (userId fcmToken status subjectName date imageUrl clickLink : string) :
  let uid := Js.str (Notification.uid (doc change)) in
  let subjectId := Js.str (Notification.subjectId (doc change)) in
  let send :=
    sendVisibleNotification env userId fcmToken status subjectName date imageUrl
      clickLink in
  let data :=
    JSON.stringify
      (fcm_message fcmToken "Attendance Update"
         ("Marked " ++ status ++ " for " ++ subjectName ++ " on " ++ date)
         imageUrl clickLink) in
  ((exists later,
      (calls (trace (on_change env change)) ++ later)%list
        = [GetUser uid; GetSubject uid subjectId; token_request env]) \/
   (exists post,
      is_request post = true /\
      calls (trace (on_change env change))
        = [GetUser uid; GetSubject uid subjectId; token_request env; post])) /\
  (exists rest,
     trace send = ConsoleLog "🔄 Getting access token..." :: token_request env :: rest) /\
  (imageUrl = "" ->
     requests (trace send) = [] /\
     forall tokens, token_exchange env = inr tokens ->
       trace send
         = [ConsoleLog "🔄 Getting access token..."; token_request env;
            ConsoleLog "✅ Access token obtained";
            ConsoleLog "⚠️ No image available, skipping notification"]) /\
  (imageUrl <> "" ->
     forall tokens, token_exchange env = inr tokens ->
       request_error env (request_options (serviceAccount env) tokens data) = None ->
       trace send
         = [ConsoleLog "🔄 Getting access token..."; token_request env;
            ConsoleLog "✅ Access token obtained";
            ConsoleLog ("🖼️ Sending data-only message with image: " ++ imageUrl);
            HttpsRequest (request_options (serviceAccount env) tokens data) data
              (on_end userId) (on_request_error userId)]).
Proof.
  intros uid subjectId send data. split; [| split; [| split]].
  - subst uid subjectId. paths env change; cbn.
    1-2: left; eexists; reflexivity.
    1-2: left; eexists; reflexivity.
    1-2: left; eexists; reflexivity.
    1-2: left; exists []; reflexivity.
    1: left; exists []; reflexivity.
    right; eexists; split; [|reflexivity]; reflexivity.
  - apply send_begins_with_exchange.
  - intros He. subst send.
    destruct (token_exchange env) as [e | tokens] eqn:Hjwt.
    + rewrite (send_exchange_failed _ _ _ _ _ _ _ _ e Hjwt).
      split; [reflexivity | discriminate].
    + rewrite (send_without_image _ _ _ _ _ _ _ _ tokens Hjwt He).
      split; [reflexivity|]. intros tokens' _. reflexivity.
  - intros Hne tokens Hjwt Hreq. subst send.
    now rewrite (send_with_image _ _ _ _ _ _ _ _ tokens Hjwt Hne Hreq).
Qed.

Lemma stages_in_order_witness :
  requests (trace (sendVisibleNotification Scenario.env_without_image "u1" "tok1"
                     "Present" "Maths" "05 Mar 2024" "" "")) = [] /\
  trace (sendVisibleNotification Scenario.env_without_image "u1" "tok1" "Present"
           "Maths" "05 Mar 2024" "" "")
  = [ConsoleLog "🔄 Getting access token...";
     token_request Scenario.env_without_image;
     ConsoleLog "✅ Access token obtained";
     ConsoleLog "⚠️ No image available, skipping notification"].
Proof.
  pose proof (proj1 (proj2 (proj2 (stages_in_order Scenario.env_without_image
                                     Scenario.change "u1" "tok1" "Present" "Maths"
                                     "05 Mar 2024" "" ""))) eq_refl) as (Hnone & Htrace).
  split; [exact Hnone|].
  exact (Htrace {| access_token := "ya29.token" |} eq_refl).
Defined.

(** ** C4 *)

Lemma link_or_empty (v : Js.value) :
  Js.or_str (Js.or_else v "") "" = match v with Some l => l | None => "" end.
Proof.
  rewrite or_str_empty. unfold Js.or_else. destruct v as [l|]; cbn; [|reflexivity].
  destruct (String.eqb_spec l ""); cbn; congruence.
Qed.

(** A request in the trace of a run is the one of [path_sent], with
    options that the runtime accepted. *)
Lemma request_is_accepted_post (env : Env) (change : DocumentChange) (post : Effect) :
  is_request post = true ->
  In post (trace (on_change env change)) ->
  exists u subjectDoc tokens,
    accepted change /\
    recipient_is env change u /\
    Js.truthy (User.fcmToken u) = true /\
    Js.truthy (User.image_1 u) = true /\
    subject_lookup env change = inr subjectDoc /\
    token_exchange env = inr tokens /\
    post = post_for env change u subjectDoc tokens /\
    request_error env
      (request_options (serviceAccount env) tokens (body_for env change u subjectDoc))
      = None.
Proof.
  intros Hreq. paths env change; cbn; intros Hin;
    repeat match goal with
      | H : _ \/ _ |- _ => destruct H as [H | H]
      | H : False |- _ => destruct H
      | H : _ = post |- _ => try (subst post; discriminate Hreq)
      end.
  subst post. exists u, subjectDoc, tokens.
  unfold recipient_is, subject_lookup, token_exchange.
  repeat (split; [assumption|]). split; [reflexivity | assumption].
Qed.

Lemma request_is_post (env : Env) (change : DocumentChange) (post : Effect) :
  is_request post = true ->
  In post (trace (on_change env change)) ->
  exists u subjectDoc tokens,
    accepted change /\
    recipient_is env change u /\
    Js.truthy (User.fcmToken u) = true /\
    Js.truthy (User.image_1 u) = true /\
    subject_lookup env change = inr subjectDoc /\
    token_exchange env = inr tokens /\
    post = post_for env change u subjectDoc tokens.
Proof.
  intros Hreq Hin.
  destruct (request_is_accepted_post env change post Hreq Hin)
    as (u & subjectDoc & tokens & Ha & Hu & Htok & Himg & Hsub & Hjwt & Hpost & _).
  exists u, subjectDoc, tokens. repeat (split; [assumption|]). exact Hpost.
Qed.

(** C4: the body of every request that a run makes is the JSON text of
    [{message: {token, data: {title, body, image, link}, android:
    {priority: "high"}}}]: a message with no [notification] member, whose
    title is "Attendance Update", whose body is "Marked {status} for
    {subject} on {date}" with the status of the record, the resolved
    subject name and the formatted date, and whose link is the
    recipient's link, the empty string when the recipient has none. *)
Theorem payload_shape (env : Env) (change : DocumentChange)
    (options : RequestOptions) (data : string)
    (on_response : IncomingMessage -> Async unit) (on_error : Error -> Async unit) :
  In (HttpsRequest options data on_response on_error) (trace (on_change env change)) ->
  exists u subjectDoc message,
    recipient_is env change u /\
    subject_lookup env change = inr subjectDoc /\
    data = JSON.stringify message /\
    message =
      JSON.Obj [
        ("message", JSON.Obj [
          ("token", JSON.Str (Js.str (User.fcmToken u)));
          ("data", JSON.Obj [
            ("title", JSON.Str "Attendance Update");
            ("body", JSON.Str ("Marked " ++ Js.str (Notification.status (doc change))
                                 ++ " for "
                                 ++ subject_name subjectDoc
                                      (Js.str (Notification.subjectId (doc change)))
                                 ++ " on " ++ formatted_date env (doc change)));
            ("image", JSON.Str (Js.str (User.image_1 u)));
            ("link", JSON.Str (match User.link_1 u with Some l => l | None => "" end))
          ]);
          ("android", JSON.Obj [("priority", JSON.Str "high")])
        ])
      ] /\
    JSON.at_path ["message"; "notification"] message = None /\
    JSON.at_path ["notification"] message = None.
Proof.
  intros Hin.
  destruct (request_is_post env change (HttpsRequest options data on_response on_error)
              eq_refl Hin)
    as (u & subjectDoc & tokens & _ & Hu & _ & _ & Hsub & _ & Hpost).
  injection Hpost as _ Hdata _ _.
  exists u, subjectDoc. eexists. split; [exact Hu|]. split; [exact Hsub|].
  split; [| split; [reflexivity | split; reflexivity]].
  rewrite Hdata. unfold body_for, fcm_message. now rewrite link_or_empty.
Qed.

Lemma payload_shape_witness :
  exists u subjectDoc message,
    recipient_is Scenario.env Scenario.change u /\
    subject_lookup Scenario.env Scenario.change = inr subjectDoc /\
    body_for Scenario.env Scenario.change Scenario.recipient (Some Scenario.maths)
      = JSON.stringify message /\
    message =
      JSON.Obj [
        ("message", JSON.Obj [
          ("token", JSON.Str (Js.str (User.fcmToken u)));
          ("data", JSON.Obj [
            ("title", JSON.Str "Attendance Update");
            ("body", JSON.Str ("Marked " ++ "Present" ++ " for "
                                 ++ subject_name subjectDoc "s1"
                                 ++ " on "
                                 ++ formatted_date Scenario.env (doc Scenario.change)));
            ("image", JSON.Str (Js.str (User.image_1 u)));
            ("link", JSON.Str (match User.link_1 u with Some l => l | None => "" end))
          ]);
          ("android", JSON.Obj [("priority", JSON.Str "high")])
        ])
      ] /\
    JSON.at_path ["message"; "notification"] message = None /\
    JSON.at_path ["notification"] message = None.
Proof.
  apply (payload_shape Scenario.env Scenario.change
           (request_options Scenario.account {| access_token := "ya29.token" |}
              (body_for Scenario.env Scenario.change Scenario.recipient
                 (Some Scenario.maths)))
           (body_for Scenario.env Scenario.change Scenario.recipient (Some Scenario.maths))
           (on_end "u1") (on_request_error "u1")).
  cbn. do 7 right. left. reflexivity.
Defined.

(** ** C5 *)

(** A run that has made the subject lookup and got an answer goes on to
    the token exchange. *)
Lemma resolved_run_goes_on (env : Env) (change : DocumentChange)
    (subjectDoc : DocumentSnapshot Subject.data) :
  In (GetSubject (Js.str (Notification.uid (doc change)))
        (Js.str (Notification.subjectId (doc change))))
     (trace (on_change env change)) ->
  subject_lookup env change = inr subjectDoc ->
  In (token_request env) (trace (on_change env change)).
Proof.
  intros Hin Hsub. unfold subject_lookup in Hsub. revert Hin.
  paths env change; cbn; intros Hin;
    try (repeat (destruct Hin as [Hin | Hin]; try discriminate Hin); now destruct Hin);
    try congruence.
  all: auto 6.
Qed.

(** C5: for a run that has made the subject lookup and got an answer,
    the name used for the subject is the display name of the subject
    record when the record exists and its name is non-empty, and the raw
    subjectId when the record is absent or its name is empty; either way
    the run goes on to the token exchange, and the body of any request
    it makes says "Marked {status} for {that name} on {date}". *)
Theorem subject_name_resolution (env : Env) (change : DocumentChange)
    (subjectDoc : DocumentSnapshot Subject.data) :
  let uid := Js.str (Notification.uid (doc change)) in
  let subjectId := Js.str (Notification.subjectId (doc change)) in
  In (GetSubject uid subjectId) (trace (on_change env change)) ->
  subject_lookup env change = inr subjectDoc ->
  exists subject,
    (forall d n, subjectDoc = Some d -> Subject.name d = Some n -> n <> "" ->
       subject = n) /\
    (subjectDoc = None \/ (exists d, subjectDoc = Some d /\ ~ present (Subject.name d)) ->
       subject = subjectId) /\
    In (token_request env) (trace (on_change env change)) /\
    (forall options data on_response on_error,
       In (HttpsRequest options data on_response on_error) (trace (on_change env change)) ->
       exists message,
         data = JSON.stringify message /\
         JSON.at_path ["message"; "data"; "body"] message
           = Some (JSON.Str ("Marked " ++ Js.str (Notification.status (doc change))
                               ++ " for " ++ subject ++ " on "
                               ++ formatted_date env (doc change)))).
Proof.
  intros uid subjectId Hin Hsub.
  pose proof (resolved_run_goes_on env change subjectDoc Hin Hsub) as Hgoes.
  exists (subject_name subjectDoc subjectId). split; [| split; [| split]].
  - intros d n -> Hn Hne. cbn. unfold Js.or_else, Js.truthy; rewrite Hn.
    apply String.eqb_neq in Hne. now rewrite Hne.
  - intros [-> | (d & -> & Hname)]; [reflexivity|]. cbn.
    apply falsy_not_present in Hname. unfold Js.or_else. now rewrite Hname.
  - exact Hgoes.
  - intros options data on_response on_error Hreq.
    destruct (request_is_post env change (HttpsRequest options data on_response on_error)
              eq_refl Hreq)
      as (u' & subjectDoc' & tokens & _ & Hu' & _ & _ & Hsub' & _ & Hpost).
    injection Hpost as _ Hdata _ _.
    unfold subject_lookup in Hsub, Hsub'. rewrite Hsub in Hsub'.
    injection Hsub' as <-.
    eexists. split; [exact Hdata | reflexivity].
Qed.

Lemma subject_name_resolution_witness :
  exists subject,
    (forall d n, Some Scenario.maths = Some d -> Subject.name d = Some n -> n <> "" ->
       subject = n) /\
    (Some Scenario.maths = None \/
     (exists d, Some Scenario.maths = Some d /\ ~ present (Subject.name d)) ->
       subject = "s1") /\
    In (token_request Scenario.env) (trace (on_change Scenario.env Scenario.change)) /\
    (forall options data on_response on_error,
       In (HttpsRequest options data on_response on_error)
          (trace (on_change Scenario.env Scenario.change)) ->
       exists message,
         data = JSON.stringify message /\
         JSON.at_path ["message"; "data"; "body"] message
           = Some (JSON.Str ("Marked " ++ "Present" ++ " for " ++ subject ++ " on "
                               ++ formatted_date Scenario.env (doc Scenario.change)))).
Proof.
  apply (subject_name_resolution Scenario.env Scenario.change (Some Scenario.maths)).
  - cbn. do 2 right. left. reflexivity.
  - reflexivity.
Defined.

(** ** C6 *)

Lemma leap_year (y : Z) :
  Date.InLeapYear y = true <-> (y mod 4 = 0 /\ (y mod 100 <> 0 \/ y mod 400 = 0)).
Proof.
  unfold Date.InLeapYear.
  destruct (Z.eqb_spec (y mod 4) 0), (Z.eqb_spec (y mod 100) 0),
           (Z.eqb_spec (y mod 400) 0);
    cbn; split; intros H; try discriminate; try reflexivity; try tauto.
  all: exfalso; Z.div_mod_to_equations; lia.
Qed.

(** The year of the era and the day of the year that [Date.civil]
    computes from the day of the era; the year begins in March, and its
    366th day is the leap day of the next calendar year. *)
Lemma year_of_era (doe : Z) :
  0 <= doe < 146097 ->
  let yoe := (doe - doe / 1460 + doe / 36524 - doe / 146096) / 365 in
  let doy := doe - (365 * yoe + yoe / 4 - yoe / 100) in
  0 <= yoe <= 399 /\ 0 <= doy <= 365 /\
  (doy = 365 -> (yoe + 1) mod 4 = 0 /\ ((yoe + 1) mod 100 <> 0 \/ (yoe + 1) mod 400 = 0)).
Proof.
  intros H yoe doy. subst doy yoe. Z.div_mod_to_equations. lia.
Qed.

(** [Date.civil] returns the calendar date of the day: a month from 1 to
    12, a day of that month, and the date whose day number is the one
    given. *)
Lemma civil_is_the_date (n : Z) :
  exists y m d,
    Date.civil n = (y, m, d) /\
    1 <= m <= 12 /\ 1 <= d <= Date.DaysInMonth y m /\ Date.MakeDay y m d = n.
Proof.
  unfold Date.civil.
  set (z := n + 719468).
  set (era := z / 146097).
  set (doe := z - era * 146097).
  assert (Hdoe : 0 <= doe < 146097) by (subst doe era; Z.div_mod_to_equations; lia).
  assert (Hn : n = era * 146097 + doe - 719468) by (subst doe z; lia).
  clearbody doe era. clear z.
  pose proof (year_of_era doe Hdoe) as Hy. cbn zeta in Hy.
  set (yoe := (doe - doe / 1460 + doe / 36524 - doe / 146096) / 365) in *.
  set (doy := doe - (365 * yoe + yoe / 4 - yoe / 100)) in *.
  assert (Hdoe' : doe = 365 * yoe + yoe / 4 - yoe / 100 + doy) by (subst doy; lia).
  destruct Hy as (Hyoe & Hdoy & Hleap).
  clearbody doy yoe. subst doe.
  set (mp := (5 * doy + 2) / 153).
  assert (Hmp : 0 <= mp <= 11) by (subst mp; Z.div_mod_to_equations; lia).
  assert (Hd : (153 * mp + 2) / 5 <= doy < (153 * (mp + 1) + 2) / 5)
    by (subst mp; Z.div_mod_to_equations; lia).
  clearbody mp.
  eexists _, _, _. split; [reflexivity|].
  assert (Hcases : mp = 0 \/ mp = 1 \/ mp = 2 \/ mp = 3 \/ mp = 4 \/ mp = 5 \/ mp = 6
                   \/ mp = 7 \/ mp = 8 \/ mp = 9 \/ mp = 10 \/ mp = 11) by lia.
  unfold Date.MakeDay, Date.DayFromYear.
  destruct Hcases
    as [-> | [-> | [-> | [-> | [-> | [-> | [-> | [-> | [-> | [-> | [-> | ->]]]]]]]]]]];
    cbn -[Z.div Z.mul Z.modulo Date.InLeapYear Date.DaysBeforeMonth Date.DaysInMonth]
      in *;
    unfold Date.DaysBeforeMonth, Date.DaysInMonth;
    cbn [fold_right map filter Z.ltb Z.eqb Z.compare Pos.compare Pos.compare_cont
         Pos.eqb orb].
  all: try (destruct (Date.InLeapYear _) eqn:Hl;
            [apply leap_year in Hl
            | assert (Hl' : ~ (_ /\ _)) by (rewrite <- leap_year, Hl; discriminate)]).
  all: Z.div_mod_to_equations; lia.
Qed.

(** Every instant of the fifth of March 2024 has that calendar date. *)
Lemma day_2024_03_05 (tv : Date.t) :
  1709596800000 <= tv < 1709683200000 ->
  Date.civil (Date.Day tv) = (2024, 3, 5).
Proof.
  intros H. replace (Date.Day tv) with 19787; [reflexivity|].
  unfold Date.Day, Date.msPerDay. Z.div_mod_to_equations. lia.
Qed.

(** Two digits: the tens, then the units. *)
Lemma two_digits_are_digits (n : Z) :
  0 <= n < 100 ->
  Date.two_digits n = String (Js.digit (n / 10)) (String (Js.digit (n mod 10)) "").
Proof.
  intros Hn.
  rewrite <- (Z2Nat.id n) by lia.
  assert (Hk : (Z.to_nat n < 100)%nat) by lia.
  set (k := Z.to_nat n) in *. clearbody k. clear Hn.
  do 100 (destruct k as [|k]; [reflexivity|]). lia.
Qed.

Lemma render_month_short (m : Z) :
  1 <= m <= 12 ->
  Date.render_month Date.month_short m
  = nth (Z.to_nat (m - 1))
      ["Jan"; "Feb"; "Mar"; "Apr"; "May"; "Jun";
       "Jul"; "Aug"; "Sept"; "Oct"; "Nov"; "Dec"] "".
Proof.
  intros Hm. unfold Date.render_month.
  assert (Hk : (Z.to_nat (m - 1) < 12)%nat) by lia.
  set (k := Z.to_nat (m - 1)) in *. clearbody k.
  do 12 (destruct k as [|k]; [reflexivity|]). lia.
Qed.

Lemma days_in_month_bound (y m : Z) : Date.DaysInMonth y m <= 31.
Proof.
  unfold Date.DaysInMonth.
  destruct (m =? 2); [destruct (Date.InLeapYear y); lia|].
  destruct ((m =? 4) || (m =? 6) || (m =? 9) || (m =? 11)); lia.
Qed.

(** C6: the date in the body of a request is the record's timestamp,
    or the current time when the record has none, rendered as the local
    calendar date of that instant: the day of the month in two digits,
    the abbreviated name of the month and the year in digits, separated
    by spaces; a timestamp that falls on 2024-03-05 in local time
    renders as "05 Mar 2024". *)
Theorem date_of_notification (env : Env) (change : DocumentChange) :
  let data := doc change in
  (forall ts, Notification.dateTime data = Some ts ->
     formatted_date env data
       = Date.toLocaleDateString Date.en_IN date_options (localTZA env) (toDate ts)) /\
  (Notification.dateTime data = None ->
     formatted_date env data
       = Date.toLocaleDateString Date.en_IN date_options (localTZA env) (now env)) /\
  (exists y m d,
     1 <= m <= 12 /\ 1 <= d <= Date.DaysInMonth y m /\
     Date.MakeDay y m d = Date.Day (event_date env data + localTZA env) /\
     formatted_date env data
       = String (Js.digit (d / 10)) (String (Js.digit (d mod 10)) "") ++ " "
           ++ nth (Z.to_nat (m - 1))
                ["Jan"; "Feb"; "Mar"; "Apr"; "May"; "Jun";
                 "Jul"; "Aug"; "Sept"; "Oct"; "Nov"; "Dec"] ""
           ++ " " ++ Js.of_Z y) /\
  (forall ts, Notification.dateTime data = Some ts ->
     1709596800000 <= toDate ts + localTZA env < 1709683200000 ->
     formatted_date env data = "05 Mar 2024") /\
  (forall options body on_response on_error,
     In (HttpsRequest options body on_response on_error) (trace (on_change env change)) ->
     exists message subject,
       body = JSON.stringify message /\
       JSON.at_path ["message"; "data"; "body"] message
         = Some (JSON.Str ("Marked " ++ Js.str (Notification.status data)
                             ++ " for " ++ subject ++ " on " ++ formatted_date env data))).
Proof.
  intros data. split; [| split; [| split; [| split]]].
  - unfold formatted_date, event_date. now intros ts ->.
  - unfold formatted_date, event_date. now intros ->.
  - destruct (civil_is_the_date (Date.Day (event_date env data + localTZA env)))
      as (y & m & d & Hc & Hm & Hd & Hday).
    exists y, m, d. split; [exact Hm|]. split; [exact Hd|]. split; [exact Hday|].
    unfold formatted_date, Date.toLocaleDateString. rewrite Hc.
    cbn [date_options Date.day Date.month Date.year Date.render_day Date.render_year].
    rewrite (render_month_short m Hm).
    pose proof (days_in_month_bound y m).
    now rewrite (two_digits_are_digits d) by lia.
  - intros ts Hts Hrange. unfold formatted_date, event_date, Date.toLocaleDateString.
    rewrite Hts. now rewrite (day_2024_03_05 _ Hrange).
  - intros options body on_response on_error Hin.
    destruct (request_is_post env change (HttpsRequest options body on_response on_error)
                eq_refl Hin)
      as (u & subjectDoc & tokens & _ & _ & _ & _ & _ & _ & Hpost).
    injection Hpost as _ Hbody _ _.
    eexists _, _. split; [exact Hbody | reflexivity].
Qed.

Lemma date_of_notification_witness :
  Notification.dateTime Scenario.dated_record = Some Scenario.noon_5_march_2024 /\
  1709596800000
    <= toDate Scenario.noon_5_march_2024 + localTZA Scenario.env < 1709683200000 /\
  formatted_date Scenario.env Scenario.dated_record = "05 Mar 2024".
Proof.
  split; [reflexivity|]. split; [cbn; lia|].
  apply (proj1 (proj2 (proj2 (proj2
           (date_of_notification Scenario.env Scenario.dated_change))))
         Scenario.noon_5_march_2024).
  - reflexivity.
  - cbn; lia.
Defined.

Example day_number_of_date :
  Date.MakeDay 1970 1 1 = 0 /\ Date.MakeDay 2024 2 29 = 19782 /\
  Date.MakeDay 2024 3 5 = 19787 /\ Date.MakeDay 1900 3 1 = -25508 /\
  Date.MakeDay 1969 12 31 = -1.
Proof. repeat split; reflexivity. Qed.

Example september_in_the_locale :
  Date.toLocaleDateString Date.en_IN date_options 19800000 1726381800000
  = "15 Sept 2024".
Proof. reflexivity. Qed.

(** ** C7 *)

Lemma concat_cons (x : string) (xs : list string) :
  String.concat "" (x :: xs) = x ++ String.concat "" xs.
Proof. destruct xs; cbn; [now rewrite append_nil_r | reflexivity]. Qed.

(** [responseData] after all the chunks is the body of the response. *)
Lemma response_data (chunks : list string) (acc : string) :
  fold_left append chunks acc = acc ++ String.concat "" chunks.
Proof.
  revert acc; induction chunks as [|c cs IH]; intros acc.
  - cbn. now rewrite append_nil_r.
  - cbn [fold_left]. now rewrite IH, concat_cons, append_assoc.
Qed.

Lemma only_logs_no_request (l : list Effect) :
  forallb is_log l = true -> requests l = [] /\ calls l = [].
Proof.
  induction l as [|e l IH]; cbn; [auto|].
  destruct e; cbn; try discriminate; exact IH.
Qed.

(** What happens after the callback has returned: the listeners of its
    request, if it made one, write one log line. *)
Lemma run_change_shape (env : Env) (gateway : Gateway) (change : DocumentChange) :
  exists late,
    run_change env gateway change
      = ((trace (on_change env change) ++ late)%list, inr tt) /\
    forallb is_log late = true.
Proof.
  unfold run_change. paths env change;
    try (exists []; split; reflexivity).
  unfold post_for.
  unfold bind at 1. cbn [settled trace fst snd].
  cbn [deliver_all deliver]. unfold ret.
  destruct (gateway _ _) as [err | res].
  - eexists; split; [reflexivity | reflexivity].
  - unfold on_end. destruct (statusCode res =? 200);
      eexists; (split; [reflexivity | reflexivity]).
Qed.

(** C7: the listeners of every request log a success line with the
    recipient's id when the status code is 200, a failure line with the
    status code and the response body for any other status, and a
    failure line with the error's message for a transport error; they do
    nothing else: whatever the gateway answers, the run resolves and the
    requests made are those of the callback, with none added. *)
Theorem response_classification (env : Env) (gateway : Gateway) (change : DocumentChange) :
  let uid := Js.str (Notification.uid (doc change)) in
  (forall options data on_response on_error,
     In (HttpsRequest options data on_response on_error) (trace (on_change env change)) ->
     (forall res, statusCode res = 200 ->
        on_response res = ([ConsoleLog ("✅ Data message sent to " ++ uid)], inr tt)) /\
     (forall res, statusCode res <> 200 ->
        on_response res
          = ([ConsoleLog ("❌ FCM Error Status: " ++ Js.of_Z (statusCode res)
                            ++ ", Response: " ++ String.concat "" (chunks res))],
             inr tt)) /\
     (forall err,
        on_error err
          = ([ConsoleError ("❌ FCM Request failed for " ++ uid ++ ":") (message err)],
             inr tt))) /\
  settled (run_change env gateway change) = inr tt /\
  requests (trace (run_change env gateway change))
    = requests (trace (on_change env change)).
Proof.
  intros uid. split; [| split].
  - intros options data on_response on_error Hin.
    destruct (request_is_post env change (HttpsRequest options data on_response on_error)
                eq_refl Hin)
      as (u & subjectDoc & tokens & _ & _ & _ & _ & _ & _ & Hpost).
    injection Hpost as _ _ -> ->. split; [| split].
    + intros res Hcode. unfold on_end. now rewrite Hcode.
    + intros res Hcode. unfold on_end. apply Z.eqb_neq in Hcode. rewrite Hcode.
      now rewrite response_data.
    + reflexivity.
  - destruct (run_change_shape env gateway change) as (late & -> & _). reflexivity.
  - destruct (run_change_shape env gateway change) as (late & -> & Hlate).
    unfold trace at 1; cbn [fst]. unfold requests at 1. rewrite filter_app.
    fold (requests late). rewrite (proj1 (only_logs_no_request late Hlate)).
    now rewrite app_nil_r.
Qed.

Lemma response_classification_witness :
  (on_end "u1" {| statusCode := 200; chunks := ["{}"] |}
     = ([ConsoleLog "✅ Data message sent to u1"], inr tt) /\
   on_end "u1" {| statusCode := 404; chunks := ["NOT_"; "FOUND"] |}
     = ([ConsoleLog "❌ FCM Error Status: 404, Response: NOT_FOUND"], inr tt) /\
   on_request_error "u1" {| message := "ECONNRESET" |}
     = ([ConsoleError "❌ FCM Request failed for u1:" "ECONNRESET"], inr tt)) /\
  settled (run_change Scenario.env Scenario.not_found Scenario.change) = inr tt /\
  requests (trace (run_change Scenario.env Scenario.not_found Scenario.change))
    = requests (trace (on_change Scenario.env Scenario.change)).
Proof.
  destruct (response_classification Scenario.env Scenario.not_found Scenario.change)
    as (Hlisteners & Hrest).
  split; [| exact Hrest].
  assert (Hin : In (post_for Scenario.env Scenario.change Scenario.recipient
                      (Some Scenario.maths) {| access_token := "ya29.token" |})
                   (trace (on_change Scenario.env Scenario.change)))
    by (cbn; do 7 right; left; reflexivity).
  destruct (Hlisteners _ _ _ _ Hin) as (Hok & Hfail & Herr).
  split; [| split].
  - exact (Hok {| statusCode := 200; chunks := ["{}"] |} eq_refl).
  - apply (Hfail {| statusCode := 404; chunks := ["NOT_"; "FOUND"] |}). discriminate.
  - exact (Herr {| message := "ECONNRESET" |}).
Defined.

(** ** C9 *)

Lemma forEach_nth {A : Type} (callback : DocumentChange -> nat -> A)
    (changes : list DocumentChange) :
  forall i k,
    nth_error (forEach callback i changes) k
    = option_map (fun change => callback change (i + k)%nat) (nth_error changes k).
Proof.
  induction changes as [|c cs IH]; intros i k.
  - now destruct k.
  - destruct k as [|k]; cbn.
    + now rewrite Nat.add_0_r.
    + rewrite IH. now rewrite Nat.add_succ_r.
Qed.

(** A run whose token exchange fails makes no request, and if the
    exchange was attempted its last effect is the log of the failure. *)
Lemma refused_run (env : Env) (change : DocumentChange) (e : Error) :
  token_exchange env = inl e ->
  requests (trace (on_change env change)) = [] /\
  (In (token_request env) (trace (on_change env change)) ->
   exists before,
     trace (on_change env change)
       = (before ++ [token_request env; line_sending_failed change e])%list).
Proof.
  intros He. unfold token_exchange in He.
  paths env change; cbn;
    try (split; [reflexivity|]; intros Hin;
         repeat (destruct Hin as [Hin | Hin]; try discriminate Hin);
         now destruct Hin);
    try congruence.
  split; [reflexivity|]. intros _.
  match goal with H : jwt _ _ _ _ = inl ?e' |- _ =>
    rewrite He in H; injection H as <- end.
  eexists [_; _; _; _]. reflexivity.
Qed.

(** C9: when the token exchange of an event fails, the run for that
    event makes no request to the gateway, logs the failure once the
    exchange has been attempted, and resolves without throwing; the runs
    of the other changes of the batch are what they are without the
    failure. *)
Theorem token_failure_is_local (world world' : nat -> Env)
    (changes : list DocumentChange) (k : nat) (change : DocumentChange) (e : Error) :
  nth_error changes k = Some change ->
  token_exchange (world k) = inl e ->
  (forall i, i <> k -> world' i = world i) ->
  nth_error (onSnapshot world changes) k = Some (on_change (world k) change) /\
  requests (trace (on_change (world k) change)) = [] /\
  (forall gateway, requests (trace (run_change (world k) gateway change)) = []) /\
  settled (on_change (world k) change) = inr tt /\
  (In (token_request (world k)) (trace (on_change (world k) change)) ->
   exists before,
     trace (on_change (world k) change)
       = (before ++ [token_request (world k);
                     ConsoleError ("❌ Error sending notification to "
                                     ++ Js.str (Notification.uid (doc change)) ++ ":")
                       (message e)])%list) /\
  (forall i, i <> k ->
     nth_error (onSnapshot world' changes) i = nth_error (onSnapshot world changes) i).
Proof.
  intros Hk He Hsame.
  destruct (refused_run (world k) change e He) as (Hnone & Hlog).
  split; [| split; [| split; [| split; [| split]]]].
  - unfold onSnapshot. now rewrite forEach_nth, Hk.
  - exact Hnone.
  - intros gateway.
    destruct (run_change_shape (world k) gateway change) as (late & -> & Hlate).
    unfold trace at 1; cbn [fst]. unfold requests at 1. rewrite filter_app.
    fold (requests late). fold (requests (trace (on_change (world k) change))).
    now rewrite Hnone, (proj1 (only_logs_no_request late Hlate)).
  - apply on_change_resolves.
  - exact Hlog.
  - intros i Hi. unfold onSnapshot. rewrite !forEach_nth. cbn [Nat.add].
    now rewrite (Hsame i Hi).
Qed.

Lemma token_failure_is_local_witness :
  requests (trace (on_change Scenario.env_refused Scenario.change)) = [] /\
  settled (on_change Scenario.env_refused Scenario.change) = inr tt /\
  nth_error (onSnapshot (fun i => if (i =? 0)%nat then Scenario.env_refused
                                   else Scenario.env)
               [Scenario.change; Scenario.change]) 1
  = nth_error (onSnapshot (fun _ => Scenario.env) [Scenario.change; Scenario.change]) 1.
Proof.
  pose proof (token_failure_is_local
                (fun i => if (i =? 0)%nat then Scenario.env_refused else Scenario.env)
                (fun _ => Scenario.env)
                [Scenario.change; Scenario.change] 0 Scenario.change
                {| message := "invalid_grant" |} eq_refl eq_refl) as H'.
  assert (Hsame : forall i : nat, i <> 0%nat ->
            (fun _ : nat => Scenario.env) i
            = (fun i => if (i =? 0)%nat then Scenario.env_refused else Scenario.env) i).
  { intros i Hi. cbn beta. destruct (Nat.eqb_spec i 0); [contradiction | reflexivity]. }
  specialize (H' Hsame).
  destruct H' as (_ & Hnone & _ & Hres & _ & Hothers).
  split; [exact Hnone|]. split; [exact Hres|].
  symmetry. apply Hothers. discriminate.
Defined.

(** ** C10 *)

Lemma forEach_map {A B : Type} (g : A -> B) (callback : DocumentChange -> nat -> A)
    (changes : list DocumentChange) :
  forall i,
    map g (forEach callback i changes)
    = forEach (fun change j => g (callback change j)) i changes.
Proof.
  induction changes as [|c cs IH]; intros i; cbn; [reflexivity | now rewrite IH].
Qed.

Lemma forEach_ext {A : Type} (f f' : DocumentChange -> nat -> A)
    (changes : list DocumentChange) :
  (forall change i, f change i = f' change i) ->
  forall i, forEach f i changes = forEach f' i changes.
Proof.
  intros Hext. induction changes as [|c cs IH]; intros i; cbn;
    [reflexivity | now rewrite Hext, IH].
Qed.

(** What a run shows apart from its log lines does not depend on the
    gateway's answer. *)
Lemma run_change_observable (env : Env) (gateway : Gateway) (change : DocumentChange) :
  calls (trace (run_change env gateway change)) = calls (trace (on_change env change)) /\
  settled (run_change env gateway change) = settled (on_change env change).
Proof.
  destruct (run_change_shape env gateway change) as (late & -> & Hlate).
  rewrite on_change_resolves. split; [|reflexivity].
  unfold trace at 1; cbn [fst]. unfold calls at 1. rewrite filter_app.
  fold (calls late). rewrite (proj2 (only_logs_no_request late Hlate)).
  now rewrite app_nil_r.
Qed.

(** The request is the last thing [sendVisibleNotification] does. *)
Lemma send_ends_with_request (env : Env)
    (userId fcmToken status subjectName date imageUrl clickLink : string) (post : Effect) :
  is_request post = true ->
  In post (trace (sendVisibleNotification env userId fcmToken status subjectName date
                    imageUrl clickLink)) ->
  exists before,
    trace (sendVisibleNotification env userId fcmToken status subjectName date
             imageUrl clickLink) = (before ++ [post])%list /\
    requests before = [].
Proof.
  intros Hreq.
  destruct (jwt env (client_email (serviceAccount env)) (private_key (serviceAccount env))
              [messaging_scope]) as [e | tokens] eqn:Hjwt.
  - rewrite (send_exchange_failed _ _ _ _ _ _ _ _ e Hjwt). cbn.
    intros Hin. repeat (destruct Hin as [Hin | Hin]; try (subst post; discriminate Hreq)).
    destruct Hin.
  - destruct (String.eqb_spec imageUrl "") as [He | Hne].
    + rewrite (send_without_image _ _ _ _ _ _ _ _ tokens Hjwt He). cbn.
      intros Hin. repeat (destruct Hin as [Hin | Hin]; try (subst post; discriminate Hreq)).
      destruct Hin.
    + destruct (request_error env
                  (request_options (serviceAccount env) tokens
                     (JSON.stringify
                        (fcm_message fcmToken "Attendance Update"
                           ("Marked " ++ status ++ " for " ++ subjectName ++ " on " ++ date)
                           imageUrl clickLink)))) as [err |] eqn:Hopt.
      * rewrite (send_request_refused _ _ _ _ _ _ _ _ tokens err Hjwt Hne Hopt). cbn.
        intros Hin.
        repeat (destruct Hin as [Hin | Hin]; try (subst post; discriminate Hreq)).
        destruct Hin.
      * rewrite (send_with_image _ _ _ _ _ _ _ _ tokens Hjwt Hne Hopt). cbn.
        intros Hin.
        repeat (destruct Hin as [Hin | Hin]; try (subst post; discriminate Hreq)).
        -- subst post. eexists [_; _; _; _]. split; reflexivity.
        -- destruct Hin.
Qed.

(** C10: the delivery function has returned when the gateway's answer
    arrives: the request is its last effect and it resolves whatever
    becomes of the request; the listeners that receive the answer run
    after all the effects of the callback and only write log lines.  So
    two gateways that answer differently leave the same calls and the
    same settlement, for the event itself and for every event of a
    batch. *)
Theorem dispatch_outcome_unobserved (env : Env) (change : DocumentChange)
    (gateway gateway' : Gateway)
    (world : nat -> Env) (gateways gateways' : nat -> Gateway)
    (changes : list DocumentChange) :
  (forall userId fcmToken status subjectName date imageUrl clickLink,
     settled (sendVisibleNotification env userId fcmToken status subjectName date
                imageUrl clickLink) = inr tt /\
     forall post,
       is_request post = true ->
       In post (trace (sendVisibleNotification env userId fcmToken status subjectName
                         date imageUrl clickLink)) ->
       exists before,
         trace (sendVisibleNotification env userId fcmToken status subjectName date
                  imageUrl clickLink) = (before ++ [post])%list /\
         requests before = []) /\
  (exists late,
     run_change env gateway change
       = ((trace (on_change env change) ++ late)%list, settled (on_change env change)) /\
     forallb is_log late = true) /\
  calls (trace (run_change env gateway change))
    = calls (trace (run_change env gateway' change)) /\
  settled (run_change env gateway change) = settled (run_change env gateway' change) /\
  map (fun run => (calls (trace run), settled run)) (run_snapshot world gateways changes)
    = map (fun run => (calls (trace run), settled run))
        (run_snapshot world gateways' changes).
Proof.
  split; [| split; [| split; [| split]]].
  - intros userId fcmToken status subjectName date imageUrl clickLink.
    split; [apply send_resolves | apply send_ends_with_request].
  - destruct (run_change_shape env gateway change) as (late & Hrun & Hlate).
    exists late. now rewrite on_change_resolves.
  - now rewrite !(proj1 (run_change_observable env _ change)).
  - now rewrite !(proj2 (run_change_observable env _ change)).
  - unfold run_snapshot. rewrite !forEach_map. apply forEach_ext.
    intros c i.
    now rewrite !(proj1 (run_change_observable (world i) _ c)),
                !(proj2 (run_change_observable (world i) _ c)).
Qed.

Lemma dispatch_outcome_unobserved_witness :
  (exists before,
     trace (sendVisibleNotification Scenario.env "u1" "tok1" "Present" "Maths"
              "05 Mar 2024" "img.png" "")
       = (before ++ [HttpsRequest
                       (request_options Scenario.account {| access_token := "ya29.token" |}
                          (JSON.stringify
                             (fcm_message "tok1" "Attendance Update"
                                "Marked Present for Maths on 05 Mar 2024" "img.png" "")))
                       (JSON.stringify
                          (fcm_message "tok1" "Attendance Update"
                             "Marked Present for Maths on 05 Mar 2024" "img.png" ""))
                       (on_end "u1") (on_request_error "u1")])%list /\
     requests before = []) /\
  calls (trace (run_change Scenario.env Scenario.ok Scenario.change))
    = calls (trace (run_change Scenario.env Scenario.not_found Scenario.change)) /\
  settled (run_change Scenario.env Scenario.ok Scenario.change)
    = settled (run_change Scenario.env Scenario.not_found Scenario.change).
Proof.
  pose proof (dispatch_outcome_unobserved Scenario.env Scenario.change
                Scenario.ok Scenario.not_found
                (fun _ => Scenario.env) (fun _ => Scenario.ok) (fun _ => Scenario.ok) [])
    as (Hsend & _ & Hcalls & Hsettled & _).
  split; [| exact (conj Hcalls Hsettled)].
  apply (proj2 (Hsend "u1" "tok1" "Present" "Maths" "05 Mar 2024" "img.png" "")).
  - reflexivity.
  - cbn. do 4 right. left. reflexivity.
Defined.

(** * Further properties of the pipeline *)

(** ** The recipient gate *)

Section Gate.

Variable env : Env.
Variable change : DocumentChange.

Let uid := Js.str (Notification.uid (doc change)).
Let subjectId := Js.str (Notification.subjectId (doc change)).

Hypothesis Hadded : type change = added.
Hypothesis Hrecord : well_formed change.

Lemma run_enters :
  on_change env change
  = bind (console_log ("🔔 New notification for " ++ uid ++ ": "
                         ++ Js.str (Notification.status (doc change))
                         ++ " - " ++ subjectId))
      (fun _ =>
         try_catch
           (bind (get_user env uid)
              (fun userDoc =>
                 match userDoc with
                 | None => console_log ("❌ User " ++ uid ++ " not found")
                 | Some userData =>
                     if negb (Js.truthy (User.fcmToken userData)) then
                       console_log ("❌ No FCM token for user " ++ uid)
                     else
                       bind (get_subject env uid subjectId)
                         (fun subjectDoc =>
                            sendVisibleNotification env uid
                              (Js.str (User.fcmToken userData))
                              (Js.str (Notification.status (doc change)))
                              (subject_name subjectDoc subjectId)
                              (formatted_date env (doc change))
                              (Js.or_else (User.image_1 userData) "")
                              (Js.or_else (User.link_1 userData) ""))
                 end))
           (fun err =>
              console_error ("❌ Error processing notification for " ++ uid ++ ":")
                (message err))).
Proof.
  destruct (accepted_of change Hadded Hrecord) as (_ & Hu & Hs & Hst).
  unfold on_change. rewrite Hadded. cbn zeta. rewrite Hu, Hs, Hst. reflexivity.
Qed.

Lemma run_recipient_unknown :
  users env uid = inr None ->
  on_change env change
  = ([line_new change; GetUser uid; ConsoleLog ("❌ User " ++ uid ++ " not found")],
     inr tt).
Proof.
  intros H. rewrite run_enters. unfold get_user, console_log.
  step. rewrite H. reflexivity.
Qed.

Lemma run_recipient_without_token u :
  users env uid = inr (Some u) ->
  ~ present (User.fcmToken u) ->
  on_change env change
  = ([line_new change; GetUser uid; ConsoleLog ("❌ No FCM token for user " ++ uid)],
     inr tt).
Proof.
  intros H Htok. apply falsy_not_present in Htok.
  rewrite run_enters. unfold get_user, console_log.
  step. rewrite H. step. rewrite Htok. reflexivity.
Qed.

Lemma run_recipient_lookup_failed e :
  users env uid = inl e ->
  on_change env change
  = ([line_new change; GetUser uid; line_processing_failed change e], inr tt).
Proof.
  intros H. rewrite run_enters. unfold get_user, console_log, console_error.
  step. rewrite H. reflexivity.
Qed.

Lemma run_subject_lookup_failed u e :
  users env uid = inr (Some u) ->
  present (User.fcmToken u) ->
  subjects env uid subjectId = inl e ->
  on_change env change
  = ([line_new change; GetUser uid; GetSubject uid subjectId;
      line_processing_failed change e], inr tt).
Proof.
  intros H Htok Hsub. apply truthy_present in Htok.
  rewrite run_enters. unfold get_user, get_subject, console_log, console_error.
  step. rewrite H. step. rewrite Htok. step. rewrite Hsub. reflexivity.
Qed.

End Gate.

(** A run that has made the recipient lookup is the run of an added
    change whose record has its three fields. *)
Lemma looked_up_run (env : Env) (change : DocumentChange) (uid : string) :
  In (GetUser uid) (trace (on_change env change)) ->
  type change = added /\ well_formed change.
Proof.
  paths env change; cbn; intros Hin;
    try (now destruct Hin);
    (split; [match goal with H : accepted _ |- _ => exact (proj1 H) end
            | now apply accepted_well_formed]).
Qed.

Lemma subject_looked_up_run (env : Env) (change : DocumentChange) (uid sid : string) :
  In (GetSubject uid sid) (trace (on_change env change)) ->
  exists u,
    type change = added /\ well_formed change /\ recipient_is env change u /\
    present (User.fcmToken u).
Proof.
  paths env change; cbn; intros Hin;
    try (repeat (destruct Hin as [Hin | Hin]; try discriminate Hin); now destruct Hin).
  all: exists u;
    (split; [match goal with H : accepted _ |- _ => exact (proj1 H) end|]);
    (split; [now apply accepted_well_formed|]);
    (split; [assumption | now apply truthy_present]).
Qed.

(** X1: a run that looks the recipient up and finds no such document
    logs "User ... not found" and stops there: after the recipient
    lookup no subject lookup, no token exchange and no request is made,
    whatever the other services would answer, and nothing happens
    later. *)
Theorem unknown_recipient_stops (env : Env) (gateway : Gateway) (change : DocumentChange) :
  let uid := Js.str (Notification.uid (doc change)) in
  In (GetUser uid) (trace (on_change env change)) ->
  users env uid = inr None ->
  on_change env change
    = ([line_new change; GetUser uid; ConsoleLog ("❌ User " ++ uid ++ " not found")],
       inr tt) /\
  run_change env gateway change = on_change env change.
Proof.
  intros uid Hin Hnone.
  destruct (looked_up_run env change uid Hin) as (Hadd & Hrec).
  pose proof (run_recipient_unknown env change Hadd Hrec Hnone) as Hrun.
  split; [exact Hrun|]. unfold run_change. rewrite Hrun. reflexivity.
Qed.

Lemma unknown_recipient_stops_witness :
  on_change Cases.env_unknown Scenario.change
    = ([ConsoleLog "🔔 New notification for u1: Present - s1";
        GetUser "u1";
        ConsoleLog "❌ User u1 not found"], inr tt) /\
  run_change Cases.env_unknown Scenario.ok Scenario.change
    = on_change Cases.env_unknown Scenario.change.
Proof.
  apply (unknown_recipient_stops Cases.env_unknown Scenario.ok Scenario.change).
  - cbn. right. left. reflexivity.
  - reflexivity.
Defined.

(** X2: a run that looks the recipient up and finds a document whose
    push token is absent or empty sends nothing, whatever the record,
    the recipient's image and link and the other services are: it logs
    "No FCM token" after the recipient lookup and makes no subject
    lookup, no token exchange and no request. *)
Theorem no_push_token_no_dispatch (env : Env) (gateway : Gateway) (change : DocumentChange)
    (u : User.data) :
  let uid := Js.str (Notification.uid (doc change)) in
  In (GetUser uid) (trace (on_change env change)) ->
  recipient_is env change u ->
  ~ present (User.fcmToken u) ->
  on_change env change
    = ([line_new change; GetUser uid; ConsoleLog ("❌ No FCM token for user " ++ uid)],
       inr tt) /\
  run_change env gateway change = on_change env change.
Proof.
  intros uid Hin Hu Htok.
  destruct (looked_up_run env change uid Hin) as (Hadd & Hrec).
  pose proof (run_recipient_without_token env change Hadd Hrec u Hu Htok) as Hrun.
  split; [exact Hrun|]. unfold run_change. rewrite Hrun. reflexivity.
Qed.

Lemma no_push_token_no_dispatch_witness :
  on_change Cases.env_without_token Scenario.change
    = ([ConsoleLog "🔔 New notification for u1: Present - s1";
        GetUser "u1";
        ConsoleLog "❌ No FCM token for user u1"], inr tt) /\
  run_change Cases.env_without_token Scenario.ok Scenario.change
    = on_change Cases.env_without_token Scenario.change.
Proof.
  apply (no_push_token_no_dispatch Cases.env_without_token Scenario.ok Scenario.change
           Cases.recipient_without_token).
  - cbn. right. left. reflexivity.
  - reflexivity.
  - intros (s & Hs & Hne). injection Hs as <-. now apply Hne.
Defined.

(** X3: a lookup that a run makes and that fails is caught by the
    callback: the error's message is logged, the run ends without a
    token exchange or a request, and the promise resolves.  A failed
    recipient lookup ends the run before the subject lookup; a failed
    subject lookup ends it before the token exchange. *)
Theorem lookup_failure_caught (env : Env) (change : DocumentChange) :
  let uid := Js.str (Notification.uid (doc change)) in
  let subjectId := Js.str (Notification.subjectId (doc change)) in
  In (GetUser uid) (trace (on_change env change)) ->
  (forall e,
     users env uid = inl e ->
     on_change env change
       = ([line_new change; GetUser uid;
           ConsoleError ("❌ Error processing notification for " ++ uid ++ ":")
             (message e)], inr tt)) /\
  (forall e,
     In (GetSubject uid subjectId) (trace (on_change env change)) ->
     subject_lookup env change = inl e ->
     on_change env change
       = ([line_new change; GetUser uid; GetSubject uid subjectId;
           ConsoleError ("❌ Error processing notification for " ++ uid ++ ":")
             (message e)], inr tt)).
Proof.
  intros uid subjectId Hin.
  destruct (looked_up_run env change uid Hin) as (Hadd & Hrec).
  split.
  - intros e He. exact (run_recipient_lookup_failed env change Hadd Hrec e He).
  - intros e Hsubject Hsub.
    destruct (subject_looked_up_run env change uid subjectId Hsubject)
      as (u & _ & _ & Hu & Htok).
    exact (run_subject_lookup_failed env change Hadd Hrec u e Hu Htok Hsub).
Qed.

Lemma lookup_failure_caught_witness :
  on_change Cases.env_users_down Scenario.change
    = ([ConsoleLog "🔔 New notification for u1: Present - s1";
        GetUser "u1";
        ConsoleError "❌ Error processing notification for u1:" "UNAVAILABLE"], inr tt) /\
  on_change Cases.env_subjects_down Scenario.change
    = ([ConsoleLog "🔔 New notification for u1: Present - s1";
        GetUser "u1"; GetSubject "u1" "s1";
        ConsoleError "❌ Error processing notification for u1:" "UNAVAILABLE"], inr tt).
Proof.
  split.
  - apply (proj1 (lookup_failure_caught Cases.env_users_down Scenario.change
                    ltac:(cbn; right; left; reflexivity)) Cases.unavailable).
    reflexivity.
  - apply (proj2 (lookup_failure_caught Cases.env_subjects_down Scenario.change
                    ltac:(cbn; right; left; reflexivity)) Cases.unavailable).
    + cbn. do 2 right. left. reflexivity.
    + reflexivity.
Defined.

(** ** Batches *)

Lemma forEach_In {A : Type} (callback : DocumentChange -> nat -> A)
    (changes : list DocumentChange) (r : A) :
  forall i, In r (forEach callback i changes) ->
  exists change j, In change changes /\ r = callback change j.
Proof.
  induction changes as [|c cs IH]; intros i; cbn; [tauto|].
  intros [<- | Hin].
  - exists c, i. auto.
  - destruct (IH _ Hin) as (c' & j & Hc & ->). exists c', j. auto.
Qed.

Lemma forEach_length {A : Type} (callback : DocumentChange -> nat -> A)
    (changes : list DocumentChange) :
  forall i, List.length (forEach callback i changes) = List.length changes.
Proof. induction changes as [|c cs IH]; intros i; cbn; [reflexivity | now rewrite IH]. Qed.

Lemma not_added_ignored (env : Env) (change : DocumentChange) :
  type change <> added -> on_change env change = ([], inr tt).
Proof.
  intros H. unfold on_change. destruct (type change); [contradiction | reflexivity..].
Qed.

(** X4: changes that are not additions are ignored: for a modified or
    removed document the callback does nothing at all, and a batch made
    only of such changes leaves no effect, at once or later. *)
Theorem other_changes_ignored (world : nat -> Env) (gateway : nat -> Gateway)
    (changes : list DocumentChange) :
  (forall change, In change changes -> type change <> added) ->
  (forall run, In run (onSnapshot world changes) -> run = ([], inr tt)) /\
  (forall run, In run (run_snapshot world gateway changes) -> run = ([], inr tt)).
Proof.
  intros Hall. split; intros run Hin.
  - destruct (forEach_In _ _ _ _ Hin) as (c & j & Hc & ->).
    now apply not_added_ignored, Hall.
  - destruct (forEach_In _ _ _ _ Hin) as (c & j & Hc & ->).
    unfold run_change. rewrite (not_added_ignored (world j) c (Hall c Hc)). reflexivity.
Qed.

Lemma other_changes_ignored_witness :
  onSnapshot (fun _ => Scenario.env) [Cases.modified_change; Cases.removed_change]
    = [([], inr tt); ([], inr tt)] /\
  forall run,
    In run (run_snapshot (fun _ => Scenario.env) (fun _ => Scenario.ok)
              [Cases.modified_change; Cases.removed_change]) ->
    run = ([], inr tt).
Proof.
  split; [reflexivity|].
  apply (other_changes_ignored (fun _ => Scenario.env) (fun _ => Scenario.ok)
           [Cases.modified_change; Cases.removed_change]).
  intros c [<- | [<- | []]]; discriminate.
Defined.

(** ** Token exchanges *)

Lemma run_counts (env : Env) (change : DocumentChange) :
  (List.length (requests (trace (on_change env change)))
   <= List.length (exchanges (trace (on_change env change))) <= 1)%nat.
Proof. paths env change; cbn; lia. Qed.

Lemma batch_counts (world : nat -> Env) (changes : list DocumentChange) :
  forall i,
    (total requests (forEach (fun change j => on_change (world j) change) i changes)
     <= total exchanges (forEach (fun change j => on_change (world j) change) i changes)
     <= List.length changes)%nat.
Proof.
  unfold total. induction changes as [|c cs IH]; intros i;
    cbn [forEach map list_sum fold_right List.length]; [lia|].
  pose proof (run_counts (world i) c). specialize (IH (S i)).
  unfold list_sum in IH. lia.
Qed.

(** X5: no token is kept from one notification to the next.  A run
    makes at most one token exchange and at most one request, and a
    request only after an exchange: the request bears the token that the
    exchange of its own run returned, asked for with the service
    account's email and key and the messaging scope alone.  Over a batch
    there are at least as many exchanges as requests, and at most one
    per change. *)
Theorem fresh_exchange_per_request (env : Env) (change : DocumentChange)
    (world : nat -> Env) (changes : list DocumentChange) :
  (List.length (requests (trace (on_change env change)))
   <= List.length (exchanges (trace (on_change env change))) <= 1)%nat /\
  (forall options data on_response on_error,
     In (HttpsRequest options data on_response on_error) (trace (on_change env change)) ->
     exists tokens before after,
       token_exchange env = inr tokens /\
       Authorization (headers options) = "Bearer " ++ access_token tokens /\
       trace (on_change env change)
         = (before
              ++ Authorize (client_email (serviceAccount env))
                   (private_key (serviceAccount env))
                   ["https://www.googleapis.com/auth/firebase.messaging"]
              :: after
              ++ [HttpsRequest options data on_response on_error])%list /\
       exchanges before = [] /\
       forallb is_log after = true) /\
  (total requests (onSnapshot world changes)
   <= total exchanges (onSnapshot world changes)
   <= List.length changes)%nat.
Proof.
  split; [apply run_counts|]. split; [| apply batch_counts].
  intros options data on_response on_error Hin.
  destruct (request_is_accepted_post env change
              (HttpsRequest options data on_response on_error) eq_refl Hin)
    as (u & subjectDoc & tokens & Hacc & Hu & Htok & Himg & Hsub & Hjwt & Hpost & Hopt).
  apply truthy_present in Htok, Himg.
  rewrite (run_with_image env change u subjectDoc (proj1 Hacc)
             (accepted_well_formed change Hacc) Hu Htok Hsub tokens Hjwt Himg Hopt).
  unfold post_for in Hpost. injection Hpost as -> -> -> ->.
  exists tokens. eexists [_; _; _; _], [_; _].
  split; [exact Hjwt|]. split; [reflexivity|]. split; [reflexivity|].
  split; reflexivity.
Qed.

Lemma fresh_exchange_per_request_witness :
  exists tokens before after,
    token_exchange Scenario.env = inr tokens /\
    Authorization
      (headers (request_options Scenario.account {| access_token := "ya29.token" |}
                  (body_for Scenario.env Scenario.change Scenario.recipient
                     (Some Scenario.maths))))
      = "Bearer " ++ access_token tokens /\
    trace (on_change Scenario.env Scenario.change)
      = (before
           ++ Authorize "svc@project.iam" "KEY"
                ["https://www.googleapis.com/auth/firebase.messaging"]
           :: after
           ++ [post_for Scenario.env Scenario.change Scenario.recipient
                 (Some Scenario.maths) {| access_token := "ya29.token" |}])%list /\
    exchanges before = [] /\
    forallb is_log after = true.
Proof.
  apply (proj1 (proj2 (fresh_exchange_per_request Scenario.env Scenario.change
                         (fun _ => Scenario.env) [Scenario.change]))).
  cbn. do 7 right. left. reflexivity.
Defined.

(** ** What is written to the console *)

Ltac clash_accepted :=
  match goal with
  | Ha : accepted ?c, Hm : _ && _ && _ = false |- _ =>
      exfalso; destruct Ha as (_ & Hu & Hs & Hst);
      rewrite Hu, Hs, Hst in Hm; discriminate Hm
  | Ha : accepted ?c, Hn : type ?c <> added |- _ =>
      exfalso; exact (Hn (proj1 Ha))
  end.

(** X6: the program itself writes neither the push token, the
    recipient's link, the subject's name, the service account (email,
    key, project), the bearer token nor the date to the console: these
    can reach it only inside what an outside service answers, which is
    logged as it comes.  Two runs on the same record, in worlds and with
    gateways that differ in all of these, write the same lines, in the
    callback and in the listeners of the request, as soon as the
    answers they get are alike: the recipient exists in both or in
    neither, with the same image and a token usable in both or in
    neither, the errors bear the same messages, the runtime accepts the
    request in both or refuses it with the same message, and the
    gateway answers the two requests with the same status and body. *)
Theorem secrets_not_logged (env env' : Env) (gateway gateway' : Gateway)
    (change : DocumentChange) :
  users_alike (users env (Js.str (Notification.uid (doc change))))
              (users env' (Js.str (Notification.uid (doc change)))) ->
  outcome_alike (subject_lookup env change) (subject_lookup env' change) ->
  outcome_alike (token_exchange env) (token_exchange env') ->
  (forall u sd t u' sd' t',
     recipient_is env change u -> recipient_is env' change u' ->
     subject_lookup env change = inr sd -> subject_lookup env' change = inr sd' ->
     token_exchange env = inr t -> token_exchange env' = inr t' ->
     verdict_alike
       (request_error env
          (request_options (serviceAccount env) t (body_for env change u sd)))
       (request_error env'
          (request_options (serviceAccount env') t' (body_for env' change u' sd')))) ->
  (forall options data on_response on_error options' data' on_response' on_error',
     In (HttpsRequest options data on_response on_error) (trace (on_change env change)) ->
     In (HttpsRequest options' data' on_response' on_error')
        (trace (on_change env' change)) ->
     answer_alike (gateway options data) (gateway' options' data')) ->
  logs (trace (on_change env change)) = logs (trace (on_change env' change)) /\
  logs (trace (run_change env gateway change))
    = logs (trace (run_change env' gateway' change)).
Proof.
  intros Husers Hsubj Hjwt Hverdict Hanswer.
  unfold subject_lookup, token_exchange, recipient_is, run_change in *.
  revert Hanswer.
  paths env change; paths env' change;
    try clash_accepted;
    try (intros _; split; reflexivity);
    repeat match goal with
      | H : users _ _ = _ |- _ => rewrite H in Husers
      | H : subjects _ _ _ = _ |- _ => rewrite H in Hsubj
      | H : jwt _ _ _ _ = _ |- _ => rewrite H in Hjwt
      end;
    cbn in Husers, Hsubj, Hjwt;
    try contradiction.
  all: try (destruct Husers as (Htoks & Himgs); congruence).
  all: try match goal with
       | Hu : users ?w _ = inr (Some ?u), Hu' : users ?w' _ = inr (Some ?u'),
         Hs : subjects ?w _ _ = inr ?sd, Hs' : subjects ?w' _ _ = inr ?sd',
         Ht : jwt ?w _ _ _ = inr ?t, Ht' : jwt ?w' _ _ _ = inr ?t',
         Hr : request_error ?w _ = _, Hr' : request_error ?w' _ = _ |- _ =>
           pose proof (Hverdict u sd t u' sd' t' Hu Hu' Hs Hs' Ht Ht') as Hv;
           rewrite Hr, Hr' in Hv; cbn in Hv; try contradiction
       end.
  all: unfold line_new, token_request, line_processing_failed, line_sending_failed,
         post_for, bind;
    cbn [trace settled fst snd deliver_all deliver app logs filter is_log ret];
    repeat match goal with H : message _ = message _ |- _ => rewrite H end;
    try (intros _; split; reflexivity).
  - destruct Husers as (_ & <-). intros _. split; reflexivity.
  - destruct Husers as (_ & <-). intros Hanswer.
    specialize (Hanswer _ _ _ _ _ _ _ _
                  ltac:(do 7 right; left; reflexivity)
                  ltac:(do 7 right; left; reflexivity)).
    destruct (gateway _ _) as [err | res]; destruct (gateway' _ _) as [err' | res'];
      cbn in Hanswer; try contradiction.
    + split; [reflexivity|]. cbn. now rewrite Hanswer.
    + destruct Hanswer as (Hcode & Hbody).
      unfold on_end. rewrite !response_data, Hcode, Hbody.
      destruct (statusCode res' =? 200); split; reflexivity.
Qed.

Lemma secrets_not_logged_witness :
  logs (trace (on_change Scenario.env Scenario.change))
    = logs (trace (on_change Disguise.env Scenario.change)) /\
  logs (trace (run_change Scenario.env Scenario.not_found Scenario.change))
    = logs (trace (run_change Disguise.env Scenario.not_found Scenario.change)).
Proof.
  apply (secrets_not_logged Scenario.env Disguise.env Scenario.not_found
           Scenario.not_found Scenario.change).
  - split; reflexivity.
  - exact I.
  - exact I.
  - intros; exact I.
  - intros; split; reflexivity.
Defined.

(** What a gateway sends back is logged as it comes: the bearer token
    appears on the console when the gateway echoes it. *)
Example echoed_token_is_logged :
  In (ConsoleLog "❌ FCM Error Status: 401, Response: Bearer ya29.token")
     (logs (trace (run_change Scenario.env echoing Scenario.change))).
Proof. cbn. do 4 right. left. reflexivity. Qed.

(** ** The Content-Length header *)

Lemma length_ascii (s : string) :
  Utf8.is_ascii s = true -> Js.length s = Utf8.byte_length s.
Proof.
  unfold Utf8.byte_length.
  induction s as [|c s IH]; [reflexivity|].
  cbn [Utf8.is_ascii Js.length String.length]. intros H.
  apply andb_prop in H as (Hc & Hs). rewrite (IH Hs).
  unfold Js.utf16_units. unfold Utf8.is_ascii_byte in Hc. rewrite Hc. lia.
Qed.

Lemma continuation_units (c : ascii) :
  Utf8.is_continuation c = true -> Js.utf16_units c = 0%N /\ Utf8.is_ascii_byte c = false.
Proof.
  unfold Utf8.is_continuation, Js.utf16_units, Utf8.is_ascii_byte.
  intros H. apply andb_prop in H as (Hlo & Hhi).
  apply N.leb_le in Hlo. rewrite Hhi.
  destruct (N.ltb_spec (N_of_ascii c) 128); [lia | auto].
Qed.

(** For text, [.length] never exceeds the number of bytes, and falls
    short of it as soon as one character is not ASCII. *)
Lemma length_text (n : nat) :
  forall s, (String.length s <= n)%nat ->
  Utf8.well_formed s = true ->
  (Js.length s <= Utf8.byte_length s)%N /\
  (Utf8.is_ascii s = false -> (Js.length s < Utf8.byte_length s)%N).
Proof.
  unfold Utf8.byte_length.
  induction n as [|n IH]; intros s Hlen Hwf.
  - destruct s; [cbn; split; [lia | discriminate] | cbn in Hlen; lia].
  - destruct s as [|c rest]; [cbn; split; [lia | discriminate]|].
    cbn [Utf8.well_formed] in Hwf. cbn zeta in Hwf.
    cbn [Js.length Utf8.is_ascii String.length]. cbn [String.length] in Hlen.
    unfold Js.utf16_units, Utf8.is_ascii_byte.
    destruct (N.ltb_spec (N_of_ascii c) 128) as [H128 | H128].
    { destruct (IH rest ltac:(lia) Hwf) as (Hle & Hlt).
      cbn [andb]. split; [lia|]. intros Hna. specialize (Hlt Hna). lia. }
    cbn [andb].
    destruct (N.ltb_spec (N_of_ascii c) 192) as [H192 | H192]; [discriminate|].
    destruct (N.ltb_spec (N_of_ascii c) 224) as [H224 | H224].
    { destruct rest as [|c1 r]; [discriminate|].
      apply andb_prop in Hwf as (Hc1 & Hr).
      destruct (continuation_units c1 Hc1) as (U1 & _).
      cbn [Js.length String.length] in *. rewrite U1.
      destruct (IH r ltac:(lia) Hr) as (Hle & _).
      destruct (N.ltb_spec (N_of_ascii c) 240); split; intros; lia. }
    destruct (N.ltb_spec (N_of_ascii c) 240) as [H240 | H240].
    { destruct rest as [|c1 [|c2 r]]; try discriminate.
      apply andb_prop in Hwf as (Hc & Hr). apply andb_prop in Hc as (Hc1 & Hc2).
      destruct (continuation_units c1 Hc1) as (U1 & _).
      destruct (continuation_units c2 Hc2) as (U2 & _).
      cbn [Js.length String.length] in *. rewrite U1, U2.
      destruct (IH r ltac:(lia) Hr) as (Hle & _). split; intros; lia. }
    destruct (N.ltb_spec (N_of_ascii c) 248) as [H248 | H248]; [|discriminate].
    destruct rest as [|c1 [|c2 [|c3 r]]]; try discriminate.
    apply andb_prop in Hwf as (Hc & Hr). apply andb_prop in Hc as (Hc & Hc3).
    apply andb_prop in Hc as (Hc1 & Hc2).
    destruct (continuation_units c1 Hc1) as (U1 & _).
    destruct (continuation_units c2 Hc2) as (U2 & _).
    destruct (continuation_units c3 Hc3) as (U3 & _).
    cbn [Js.length String.length] in *. rewrite U1, U2, U3.
    destruct (IH r ltac:(lia) Hr) as (Hle & _). split; intros; lia.
Qed.

Lemma is_ascii_app (a b : string) :
  Utf8.is_ascii (a ++ b) = Utf8.is_ascii a && Utf8.is_ascii b.
Proof.
  induction a as [|c a IH]; [reflexivity|].
  cbn [append Utf8.is_ascii]. now rewrite IH, andb_assoc.
Qed.

Lemma escape_is_ascii (c : ascii) :
  Utf8.is_ascii (JSON.escape c) = Utf8.is_ascii_byte c.
Proof. destruct c as [[] [] [] [] [] [] [] []]; reflexivity. Qed.

Lemma escape_high (c : ascii) :
  Utf8.is_ascii_byte c = false -> JSON.escape c = String c EmptyString.
Proof. destruct c as [[] [] [] [] [] [] [] []]; intros H; try discriminate H; reflexivity. Qed.

Lemma escape_all_is_ascii (s : string) :
  Utf8.is_ascii (JSON.escape_all s) = Utf8.is_ascii s.
Proof.
  induction s as [|c s IH]; [reflexivity|].
  cbn [JSON.escape_all Utf8.is_ascii]. now rewrite is_ascii_app, escape_is_ascii, IH.
Qed.

Lemma quote_is_ascii (s : string) : Utf8.is_ascii (JSON.quote s) = Utf8.is_ascii s.
Proof.
  unfold JSON.quote. rewrite !is_ascii_app, escape_all_is_ascii.
  cbn. now rewrite andb_true_r.
Qed.

Lemma wf_ascii (s : string) : Utf8.is_ascii s = true -> Utf8.well_formed s = true.
Proof.
  induction s as [|c s IH]; [reflexivity|].
  cbn [Utf8.is_ascii Utf8.well_formed]. intros H. apply andb_prop in H as (Hc & Hs).
  unfold Utf8.is_ascii_byte in Hc. cbn zeta. rewrite Hc. auto.
Qed.

Lemma wf_ascii_app (a b : string) :
  Utf8.is_ascii a = true -> Utf8.well_formed (a ++ b) = Utf8.well_formed b.
Proof.
  induction a as [|c a IH]; [reflexivity|].
  cbn [Utf8.is_ascii append Utf8.well_formed]. intros H.
  apply andb_prop in H as (Hc & Ha).
  unfold Utf8.is_ascii_byte in Hc. cbn zeta. rewrite Hc. auto.
Qed.

Lemma continuation_not_ascii (c : ascii) :
  Utf8.is_continuation c = true -> Utf8.is_ascii_byte c = false.
Proof. intros H. exact (proj2 (continuation_units c H)). Qed.

(** Escaping keeps text text: the bytes of a character that is not
    ASCII pass unchanged. *)
Lemma wf_escape_all (n : nat) :
  forall s rest, (String.length s <= n)%nat ->
  Utf8.well_formed s = true ->
  Utf8.well_formed (JSON.escape_all s ++ rest) = Utf8.well_formed rest.
Proof.
  induction n as [|n IH]; intros s rest Hlen Hwf.
  - destruct s; [reflexivity | cbn in Hlen; lia].
  - destruct s as [|c s]; [reflexivity|].
    cbn [String.length] in Hlen.
    cbn [Utf8.well_formed] in Hwf. cbn zeta in Hwf.
    cbn [JSON.escape_all]. rewrite append_assoc.
    destruct (N.ltb_spec (N_of_ascii c) 128) as [H128 | H128].
    { rewrite wf_ascii_app.
      - apply IH; [lia | exact Hwf].
      - rewrite escape_is_ascii. unfold Utf8.is_ascii_byte. now apply N.ltb_lt. }
    assert (Hc : Utf8.is_ascii_byte c = false)
      by (unfold Utf8.is_ascii_byte; now apply N.ltb_ge).
    rewrite (escape_high c Hc). cbn [append Utf8.well_formed]. cbn zeta.
    unfold Utf8.is_ascii_byte in Hc. rewrite Hc.
    destruct (N.ltb_spec (N_of_ascii c) 192) as [H192 | H192]; [discriminate|].
    destruct (N.ltb_spec (N_of_ascii c) 224) as [H224 | H224].
    { destruct s as [|c1 r]; [discriminate|].
      apply andb_prop in Hwf as (Hc1 & Hr).
      cbn [JSON.escape_all]. rewrite (escape_high c1 (continuation_not_ascii c1 Hc1)).
      cbn [append]. rewrite Hc1. cbn [andb String.length] in *. apply IH; [lia | exact Hr]. }
    destruct (N.ltb_spec (N_of_ascii c) 240) as [H240 | H240].
    { destruct s as [|c1 [|c2 r]]; try discriminate.
      apply andb_prop in Hwf as (Hc' & Hr). apply andb_prop in Hc' as (Hc1 & Hc2).
      cbn [JSON.escape_all].
      rewrite (escape_high c1 (continuation_not_ascii c1 Hc1)),
              (escape_high c2 (continuation_not_ascii c2 Hc2)).
      cbn [append]. rewrite Hc1, Hc2. cbn [andb String.length] in *.
      apply IH; [lia | exact Hr]. }
    destruct (N.ltb_spec (N_of_ascii c) 248) as [H248 | H248]; [|discriminate].
    destruct s as [|c1 [|c2 [|c3 r]]]; try discriminate.
    apply andb_prop in Hwf as (Hc' & Hr). apply andb_prop in Hc' as (Hc' & Hc3).
    apply andb_prop in Hc' as (Hc1 & Hc2).
    cbn [JSON.escape_all].
    rewrite (escape_high c1 (continuation_not_ascii c1 Hc1)),
            (escape_high c2 (continuation_not_ascii c2 Hc2)),
            (escape_high c3 (continuation_not_ascii c3 Hc3)).
    cbn [append]. rewrite Hc1, Hc2, Hc3. cbn [andb String.length] in *.
    apply IH; [lia | exact Hr].
Qed.

(** Text followed by more text. *)
Lemma wf_app_bounded (n : nat) :
  forall s rest, (String.length s <= n)%nat ->
  Utf8.well_formed s = true ->
  Utf8.well_formed (s ++ rest) = Utf8.well_formed rest.
Proof.
  induction n as [|n IH]; intros s rest Hlen Hwf.
  - destruct s; [reflexivity | cbn in Hlen; lia].
  - destruct s as [|c s]; [reflexivity|].
    cbn [String.length] in Hlen.
    cbn [Utf8.well_formed] in Hwf. cbn zeta in Hwf.
    cbn [append Utf8.well_formed]. cbn zeta.
    destruct (N.ltb_spec (N_of_ascii c) 128) as [H128 | H128];
      [apply IH; [lia | exact Hwf]|].
    destruct (N.ltb_spec (N_of_ascii c) 192) as [H192 | H192]; [discriminate|].
    destruct (N.ltb_spec (N_of_ascii c) 224) as [H224 | H224].
    { destruct s as [|c1 r]; [discriminate|].
      apply andb_prop in Hwf as (Hc1 & Hr).
      cbn [append]. rewrite Hc1. cbn [andb String.length] in *. apply IH; [lia | exact Hr]. }
    destruct (N.ltb_spec (N_of_ascii c) 240) as [H240 | H240].
    { destruct s as [|c1 [|c2 r]]; try discriminate.
      apply andb_prop in Hwf as (Hc' & Hr). apply andb_prop in Hc' as (Hc1 & Hc2).
      cbn [append]. rewrite Hc1, Hc2. cbn [andb String.length] in *.
      apply IH; [lia | exact Hr]. }
    destruct (N.ltb_spec (N_of_ascii c) 248) as [H248 | H248]; [|discriminate].
    destruct s as [|c1 [|c2 [|c3 r]]]; try discriminate.
    apply andb_prop in Hwf as (Hc' & Hr). apply andb_prop in Hc' as (Hc' & Hc3).
    apply andb_prop in Hc' as (Hc1 & Hc2).
    cbn [append]. rewrite Hc1, Hc2, Hc3. cbn [andb String.length] in *.
    apply IH; [lia | exact Hr].
Qed.

Lemma wf_app (s rest : string) :
  Utf8.well_formed s = true ->
  Utf8.well_formed (s ++ rest) = Utf8.well_formed rest.
Proof. exact (wf_app_bounded (String.length s) s rest (le_n _)). Qed.

Lemma wf_quote_app (s rest : string) :
  Utf8.well_formed s = true ->
  Utf8.well_formed (JSON.quote s ++ rest) = Utf8.well_formed rest.
Proof.
  intros Hwf. unfold JSON.quote. rewrite !append_assoc.
  rewrite wf_ascii_app by reflexivity.
  rewrite (wf_escape_all (String.length s) s _ (le_n _) Hwf).
  now rewrite wf_ascii_app by reflexivity.
Qed.

(** ** The text of the body *)

Lemma stringify_str (s : string) : JSON.stringify (JSON.Str s) = JSON.quote s.
Proof. reflexivity. Qed.

Lemma stringify_obj (ms : list (string * JSON.t)) :
  JSON.stringify (JSON.Obj ms) = "{" ++ JSON.members_string JSON.stringify true ms ++ "}".
Proof. reflexivity. Qed.

Lemma members_string_nil (f : JSON.t -> string) (first : bool) :
  JSON.members_string f first [] = "".
Proof. reflexivity. Qed.

(** The body, piece by piece: fixed text around the five quoted values. *)
Lemma message_text (tok title body img link : string) :
  JSON.stringify (fcm_message tok title body img link)
  = ("{" ++ JSON.quote "message" ++ ":{" ++ JSON.quote "token" ++ ":")
      ++ JSON.quote tok
      ++ ("," ++ JSON.quote "data" ++ ":{" ++ JSON.quote "title" ++ ":")
      ++ JSON.quote title
      ++ ("," ++ JSON.quote "body" ++ ":")
      ++ JSON.quote body
      ++ ("," ++ JSON.quote "image" ++ ":")
      ++ JSON.quote img
      ++ ("," ++ JSON.quote "link" ++ ":")
      ++ JSON.quote link
      ++ ("}," ++ JSON.quote "android" ++ ":{" ++ JSON.quote "priority" ++ ":"
            ++ JSON.quote "high" ++ "}}}").
Proof.
  unfold fcm_message. rewrite or_str_empty.
  repeat (rewrite ?stringify_obj, ?stringify_str, ?members_string_cons,
                  ?members_string_nil).
  rewrite !append_assoc. reflexivity.
Qed.

Lemma uint_is_ascii (d : Decimal.uint) :
  Utf8.is_ascii (NilEmpty.string_of_uint d) = true.
Proof. induction d; cbn [NilEmpty.string_of_uint Utf8.is_ascii]; auto. Qed.

Lemma of_Z_is_ascii (z : Z) : Utf8.is_ascii (Js.of_Z z) = true.
Proof.
  unfold Js.of_Z, NilZero.string_of_int.
  destruct (Z.to_int z) as [d | d]; unfold NilZero.string_of_uint;
    destruct d; cbn [Utf8.is_ascii]; rewrite ?uint_is_ascii; reflexivity.
Qed.

Lemma two_digits_is_ascii (n : Z) : Utf8.is_ascii (Date.two_digits n) = true.
Proof.
  unfold Date.two_digits. destruct (n mod 100 <? 10);
    cbn [append Utf8.is_ascii]; now rewrite of_Z_is_ascii.
Qed.

Lemma render_month_is_ascii (f : Date.MonthFormat) (m : Z) :
  Utf8.is_ascii (Date.render_month f m) = true.
Proof.
  unfold Date.render_month.
  set (k := Z.to_nat (m - 1)). clearbody k.
  do 12 (destruct k as [|k]; [destruct f; reflexivity|]).
  destruct k; destruct f; reflexivity.
Qed.

(** The formatted date is ASCII whatever the instant. *)
Lemma formatted_date_is_ascii (env : Env) (data : Notification.data) :
  Utf8.is_ascii (formatted_date env data) = true.
Proof.
  unfold formatted_date, Date.toLocaleDateString, date_options.
  destruct (Date.civil _) as [[y m] d]. cbn [Date.day Date.month Date.year].
  unfold Date.render_day, Date.render_year.
  rewrite !is_ascii_app, two_digits_is_ascii, render_month_is_ascii, of_Z_is_ascii.
  reflexivity.
Qed.

Section BodyText.

Variable env : Env.
Variable change : DocumentChange.
Variable u : User.data.
Variable subjectDoc : DocumentSnapshot Subject.data.

Lemma body_is_ascii :
  Utf8.is_ascii (body_for env change u subjectDoc)
  = forallb Utf8.is_ascii (body_fields change u subjectDoc).
Proof.
  unfold body_for. rewrite message_text.
  rewrite !is_ascii_app, !quote_is_ascii, !is_ascii_app, formatted_date_is_ascii.
  cbn. rewrite !andb_true_r.
  now rewrite !andb_assoc.
Qed.

Lemma body_well_formed :
  forallb Utf8.well_formed (body_fields change u subjectDoc) = true ->
  Utf8.well_formed (body_for env change u subjectDoc) = true.
Proof.
  cbn [forallb body_fields]. intros H.
  apply andb_prop in H as (Htok & H). apply andb_prop in H as (Hst & H).
  apply andb_prop in H as (Hsubj & H). apply andb_prop in H as (Himg & H).
  apply andb_prop in H as (Hlink & _).
  assert (Hbody : Utf8.well_formed
                    ("Marked " ++ Js.str (Notification.status (doc change))
                       ++ " for "
                       ++ subject_name subjectDoc
                            (Js.str (Notification.subjectId (doc change)))
                       ++ " on " ++ formatted_date env (doc change)) = true).
  { rewrite wf_ascii_app by reflexivity. rewrite (wf_app _ _ Hst).
    rewrite wf_ascii_app by reflexivity. rewrite (wf_app _ _ Hsubj).
    rewrite wf_ascii_app by reflexivity.
    apply wf_ascii, formatted_date_is_ascii. }
  unfold body_for. rewrite message_text.
  rewrite wf_ascii_app by reflexivity. rewrite (wf_quote_app _ _ Htok).
  rewrite wf_ascii_app by reflexivity. rewrite wf_quote_app by reflexivity.
  rewrite wf_ascii_app by reflexivity. rewrite (wf_quote_app _ _ Hbody).
  rewrite wf_ascii_app by reflexivity. rewrite (wf_quote_app _ _ Himg).
  rewrite wf_ascii_app by reflexivity. rewrite (wf_quote_app _ _ Hlink).
  reflexivity.
Qed.

End BodyText.

(** X7: the Content-Length header of a request is the [length] of the
    body string, its number of UTF-16 code units, not the number of
    bytes written.  The two agree when the push token, status, subject
    name, image and link are all ASCII; when these are text and one of
    them holds a character outside ASCII, the header is smaller than the
    number of bytes of the body.  The Content-Type is application/json. *)
Theorem content_length_counts_code_units (env : Env) (change : DocumentChange)
    (options : RequestOptions) (data : string)
    (on_response : IncomingMessage -> Async unit) (on_error : Error -> Async unit) :
  In (HttpsRequest options data on_response on_error) (trace (on_change env change)) ->
  exists u subjectDoc,
    recipient_is env change u /\
    subject_lookup env change = inr subjectDoc /\
    Content_Type (headers options) = "application/json" /\
    Content_Length (headers options) = Js.length data /\
    (forallb Utf8.is_ascii (body_fields change u subjectDoc) = true ->
       Content_Length (headers options) = Utf8.byte_length data) /\
    (forallb Utf8.well_formed (body_fields change u subjectDoc) = true ->
     forallb Utf8.is_ascii (body_fields change u subjectDoc) = false ->
       (Content_Length (headers options) < Utf8.byte_length data)%N).
Proof.
  intros Hin.
  destruct (request_is_post env change (HttpsRequest options data on_response on_error)
              eq_refl Hin)
    as (u & subjectDoc & tokens & _ & Hu & _ & _ & Hsub & _ & Hpost).
  unfold post_for in Hpost. injection Hpost as -> -> _ _.
  exists u, subjectDoc. split; [exact Hu|]. split; [exact Hsub|].
  split; [reflexivity|]. split; [reflexivity|].
  cbn [headers Content_Length request_options]. split.
  - intros Hascii. apply length_ascii. now rewrite body_is_ascii.
  - intros Hwf Hnot.
    apply (length_text (String.length (body_for env change u subjectDoc)) _ (le_n _)).
    + now apply body_well_formed.
    + now rewrite body_is_ascii.
Qed.

Lemma content_length_counts_code_units_witness :
  (Js.length (body_for Scenario.env Scenario.change Scenario.recipient
                (Some Scenario.maths))
   = Utf8.byte_length (body_for Scenario.env Scenario.change Scenario.recipient
                         (Some Scenario.maths))) /\
  (Js.length (body_for Accented.env Scenario.change Scenario.recipient
                (Some Accented.subject))
   < Utf8.byte_length (body_for Accented.env Scenario.change Scenario.recipient
                         (Some Accented.subject)))%N.
Proof.
  split.
  - destruct (content_length_counts_code_units Scenario.env Scenario.change
                (request_options Scenario.account {| access_token := "ya29.token" |}
                   (body_for Scenario.env Scenario.change Scenario.recipient
                      (Some Scenario.maths)))
                (body_for Scenario.env Scenario.change Scenario.recipient
                   (Some Scenario.maths))
                (on_end "u1") (on_request_error "u1"))
      as (u & subjectDoc & Hu & Hsub & _ & _ & Hascii & _).
    + cbn. do 7 right. left. reflexivity.
    + injection Hu as <-. injection Hsub as <-. apply Hascii. reflexivity.
  - destruct (content_length_counts_code_units Accented.env Scenario.change
                (request_options Scenario.account {| access_token := "ya29.token" |}
                   (body_for Accented.env Scenario.change Scenario.recipient
                      (Some Accented.subject)))
                (body_for Accented.env Scenario.change Scenario.recipient
                   (Some Accented.subject))
                (on_end "u1") (on_request_error "u1"))
      as (u & subjectDoc & Hu & Hsub & _ & _ & _ & Hshort).
    + cbn. do 7 right. left. reflexivity.
    + injection Hu as <-. injection Hsub as <-. apply Hshort; reflexivity.
Defined.

Example accented_lengths :
  Js.length (body_for Accented.env Scenario.change Scenario.recipient
               (Some Accented.subject)) = 175%N /\
  Utf8.byte_length (body_for Accented.env Scenario.change Scenario.recipient
                      (Some Accented.subject)) = 176%N.
Proof. split; reflexivity. Qed.

(** ** A request that the runtime refuses *)

(** X11: when [https.request] throws on the options it is given (a
    path or a header value with a character the runtime refuses), the
    delivery function catches the exception: it has made the token
    exchange and logged the image, it logs "Error sending notification"
    with the exception's message, makes no request and resolves. *)
Theorem refused_request_is_caught (env : Env)
    (userId fcmToken status subjectName date imageUrl clickLink : string)
    (tokens : Credentials) (e : Error) :
  let data :=
    JSON.stringify
      (fcm_message fcmToken "Attendance Update"
         ("Marked " ++ status ++ " for " ++ subjectName ++ " on " ++ date)
         imageUrl clickLink) in
  token_exchange env = inr tokens ->
  imageUrl <> "" ->
  request_error env (request_options (serviceAccount env) tokens data) = Some e ->
  sendVisibleNotification env userId fcmToken status subjectName date imageUrl clickLink
  = ([ConsoleLog "🔄 Getting access token...";
      Authorize (client_email (serviceAccount env)) (private_key (serviceAccount env))
        ["https://www.googleapis.com/auth/firebase.messaging"];
      ConsoleLog "✅ Access token obtained";
      ConsoleLog ("🖼️ Sending data-only message with image: " ++ imageUrl);
      ConsoleError ("❌ Error sending notification to " ++ userId ++ ":") (message e)],
     inr tt) /\
  requests (trace (sendVisibleNotification env userId fcmToken status subjectName date
                     imageUrl clickLink)) = [].
Proof.
  intros data Hjwt Hne Hreq.
  rewrite (send_request_refused _ _ _ _ _ _ _ _ tokens e Hjwt Hne Hreq).
  split; reflexivity.
Qed.

Lemma refused_request_is_caught_witness :
  sendVisibleNotification Unescaped.env "u1" "tok1" "Present" "Maths" "05 Mar 2024"
    "img.png" ""
  = ([ConsoleLog "🔄 Getting access token...";
      Authorize "svc@project.iam" "KEY"
        ["https://www.googleapis.com/auth/firebase.messaging"];
      ConsoleLog "✅ Access token obtained";
      ConsoleLog "🖼️ Sending data-only message with image: img.png";
      ConsoleError "❌ Error sending notification to u1:"
        "Request path contains unescaped characters"],
     inr tt) /\
  requests (trace (sendVisibleNotification Unescaped.env "u1" "tok1" "Present" "Maths"
                     "05 Mar 2024" "img.png" "")) = [].
Proof.
  apply (refused_request_is_caught Unescaped.env "u1" "tok1" "Present" "Maths"
           "05 Mar 2024" "img.png" "" {| access_token := "ya29.token" |}
           Unescaped.refusal).
  - reflexivity.
  - discriminate.
  - reflexivity.
Defined.
